(** * NeuroFit body diagram: binder, mount watcher, route reflection, hotspots

    A shallow embedding of [src/anatomy.js] (the hash-route binder and the
    React hotspot component that follows it in the same file) and of the
    autowire script [src/unnamed/part_000], with the properties of the
    specification stated over it.

    - [Dom]            the DOM-like surface the scripts consume
    - [Binder]         the binding steps both scripts spell out word for word
    - [AnatomyJs]      anatomy.js, lines 1-102
    - [Autowire]       part_000
    - [Events]         the listeners of one element, run in order
    - [AnatomyDiagram] anatomy.js, lines 103-300 (the hotspot table)
    - [Listeners]      anatomy.js, lines 95-101
    - [Component]      anatomy.js, lines 164-283 (state and render)
    - [Browser]        the same closures inside the document: event paths,
                       [getElementById], inherited members, exceptions
    - [JsNumber]       NaN, the infinities and the finite numbers
    - [Hotspots]       [clamp] and the rendered hotspots over all numbers *)

From Stdlib Require Import ZArith QArith Qminmax String Ascii List Lia Lqa.
From stdpp Require Import base option list gmap strings.

Set Warnings "-register-all".

(** ** The DOM-like surface *)
Module Dom.

(** An element as the scripts can tell elements apart: tag name, [id]
    attribute, class list, child elements in document order. The scripts
    never change any of these directly. *)
Inductive node : Type :=
  Node { tagName : string;
         idAttr : option string;
         classList : list string;
         childNodes : list node }.

(** A fragment is the content mounted below [#app] at some moment.  Every
    rendering produces a new fragment; elements of an older fragment stay
    alive (detached) as long as a closure holds them. *)
Definition fragment := list node.
Definition path := list nat.
Definition ref : Type := nat * path.

(** The three closures the binders create.  [isFront] of the toggle closure
    is the [let] variable it captured: it lives in the closure. *)
Inductive script := AnatomyScript | AutowireScript.

Inductive listener :=
| ToggleClick (isFront : bool) (front back toggleBtn : ref)
| HitKeydown (el : ref)
| HitClick (owner : script) (el : ref).

(** What the scripts write on an element. [textContent = Some s] records an
    assignment [el.textContent = s], which replaces the children of [el] by
    one text node. *)
Record props := Props {
  display : option string;
  textContent : option string;
  role : option string;
  tabIndex : option Z;
  dataset_bound : option string;
  listeners : list listener }.

Definition no_props : props := Props None None None None None [].

Record page := Page {
  hash : string;                        (* location.hash *)
  app : option nat;                     (* #app and the fragment it holds *)
  frags : list fragment;
  store : gmap ref props;
  templates : gmap string fragment;     (* <template id=...> contents *)
  console : list (list string) }.       (* console.warn calls *)

Definition props_of (pg : page) (r : ref) : props :=
  default no_props (store pg !! r).

Definition update (r : ref) (f : props -> props) (pg : page) : page :=
  Page (hash pg) (app pg) (frags pg) (<[r := f (props_of pg r)]> (store pg))
       (templates pg) (console pg).

Definition set_display (v : string) (p : props) : props :=
  Props (Some v) (textContent p) (role p) (tabIndex p) (dataset_bound p) (listeners p).
Definition set_textContent (v : string) (p : props) : props :=
  Props (display p) (Some v) (role p) (tabIndex p) (dataset_bound p) (listeners p).
Definition set_role (v : string) (p : props) : props :=
  Props (display p) (textContent p) (Some v) (tabIndex p) (dataset_bound p) (listeners p).
Definition set_tabIndex (v : Z) (p : props) : props :=
  Props (display p) (textContent p) (role p) (Some v) (dataset_bound p) (listeners p).
Definition set_bound (v : string) (p : props) : props :=
  Props (display p) (textContent p) (role p) (tabIndex p) (Some v) (listeners p).
Definition set_listeners (ls : list listener) (p : props) : props :=
  Props (display p) (textContent p) (role p) (tabIndex p) (dataset_bound p) ls.

(** [el.addEventListener(type, closure)]: appended, so run last. *)
Definition addEventListener (el : ref) (l : listener) (pg : page) : page :=
  update el (fun p => set_listeners (listeners p ++ [l]) p) pg.

Definition warn (args : list string) (pg : page) : page :=
  Page (hash pg) (app pg) (frags pg) (store pg) (templates pg) (console pg ++ [args]).

Fixpoint node_at (ks : list node) (p : path) : option node :=
  match p with
  | [] => None
  | i :: p' =>
      match ks !! i with
      | None => None
      | Some n => match p' with [] => Some n | _ => node_at (childNodes n) p' end
      end
  end.

Definition node_of (pg : page) (r : ref) : option node :=
  match frags pg !! r.1 with
  | Some f => node_at f r.2
  | None => None
  end.

(** [el.id]: the empty string when the attribute is absent. *)
Definition id_of (pg : page) (r : ref) : string :=
  match node_of pg r with
  | Some n => default "" (idAttr n)
  | None => ""
  end.

(** Positions of the element descendants of the node at [p], in document
    order.  [gone q] tells that the children of [q] were replaced by text. *)
Fixpoint below (gone : path -> bool) (p : path) (n : node) {struct n} : list path :=
  if gone p then []
  else
    (fix kids (i : nat) (ks : list node) {struct ks} : list path :=
       match ks with
       | [] => []
       | k :: ks' => (p ++ [i]) :: below gone (p ++ [i]) k ++ kids (S i) ks'
       end) 0%nat (childNodes n).

Fixpoint below_all (gone : path -> bool) (i : nat) (ks : fragment) : list path :=
  match ks with
  | [] => []
  | k :: ks' => [i] :: below gone [i] k ++ below_all gone (S i) ks'
  end.

Definition text_only (pg : page) (g : nat) (p : path) : bool :=
  bool_decide (is_Some (textContent (props_of pg (g, p)))).

Definition descendants (pg : page) (r : ref) : list ref :=
  match node_of pg r with
  | Some n => (fun p => (r.1, p)) <$> below (text_only pg r.1) r.2 n
  | None => []
  end.

(** The selectors the scripts use: ['#x'], ['[id]'] and ['section.card']. *)
Inductive selector :=
| ById (id : string)
| HasId
| TagClass (tag cls : string).

Definition matches (pg : page) (sel : selector) (r : ref) : bool :=
  match node_of pg r with
  | None => false
  | Some n =>
      match sel with
      | ById i => bool_decide (idAttr n = Some i)
      | HasId => bool_decide (is_Some (idAttr n))
      | TagClass t c => bool_decide (tagName n = t) && bool_decide (c ∈ classList n)
      end
  end.

Definition querySelectorAll (pg : page) (root : ref) (sel : selector) : list ref :=
  filter (fun r => matches pg sel r = true) (descendants pg root).

Definition querySelector (pg : page) (root : ref) (sel : selector) : option ref :=
  head (querySelectorAll pg root sel).

(** [document.getElementById('app')] then [app.querySelector(sel)]. *)
Definition app_querySelector (pg : page) (sel : selector) : option ref :=
  match app pg with
  | None => None
  | Some g =>
      match frags pg !! g with
      | None => None
      | Some f =>
          head (filter (fun r => matches pg sel r = true)
                       ((fun p => (g, p)) <$> below_all (text_only pg g) 0 f))
      end
  end.

(** JS [s.startsWith(p)] and [s.replace(pat, rep)] with a string pattern
    (first occurrence only). *)
Definition startsWith (s p : string) : bool := String.prefix p s.

Fixpoint drop_chars (n : nat) (s : string) : string :=
  match n, s with
  | O, _ => s
  | S n', String _ s' => drop_chars n' s'
  | S _, EmptyString => EmptyString
  end.

Fixpoint replace (pat rep s : string) : string :=
  if String.prefix pat s then rep +:+ drop_chars (String.length pat) s
  else match s with
       | EmptyString => EmptyString
       | String c s' => String c (replace pat rep s')
       end.

(** Induction on an element with the property known of all its children. *)
Fixpoint node_induction (P : node -> Prop)
    (step : forall tg i c ks, Forall P ks -> P (Node tg i c ks)) (n : node) : P n :=
  match n with
  | Node tg i c ks =>
      step tg i c ks
        ((fix all (l : list node) : Forall P l :=
            match l with
            | [] => Forall_nil_2 P
            | k :: l' => Forall_cons_2 P k l' (node_induction P step k) (all l')
            end) ks)
  end.

End Dom.
Import Dom.

(** ** The binding steps

    Lines 41-71 of anatomy.js ([bindDiagram]) and lines 33-65 of part_000
    ([initBodyDiagram]) are the same statements letter for letter; they are
    embedded once, with the script that ran them as a parameter, because the
    click closure calls the [showTemplate] and reads the [muscleToTemplate]
    of its own script. *)
Module Binder.

(** The three sub-elements, all or nothing. *)
Definition resolve (pg : page) (root : ref) : option (ref * ref * ref) :=
  match querySelector pg root (ById "frontView"),
        querySelector pg root (ById "backView"),
        querySelector pg root (ById "toggleViewBtn") with
  | Some front, Some back, Some toggleBtn => Some (front, back, toggleBtn)
  | _, _, _ => None
  end.

(** [front.style.display = 'block'; back.style.display = 'none';
    toggleBtn.textContent = 'Show Back View']. *)
Definition defaultState (front back toggleBtn : ref) (pg : page) : page :=
  update toggleBtn (set_textContent "Show Back View")
    (update back (set_display "none")
       (update front (set_display "block") pg)).

(** [[...front.querySelectorAll('[id]'), ...back.querySelectorAll('[id]')]]. *)
Definition clickable (pg : page) (front back : ref) : list ref :=
  querySelectorAll pg front HasId ++ querySelectorAll pg back HasId.

(** The body of [clickable.forEach]. *)
Definition makeActivatable (owner : script) (pg : page) (el : ref) : page :=
  addEventListener el (HitClick owner el)
    (addEventListener el (HitKeydown el)
       (update el (set_tabIndex 0)
          (update el (set_role "button") pg))).

(** The page when [clickable] is computed: default state set, toggle
    closure (with [isFront = true]) attached. *)
Definition prepared (front back toggleBtn : ref) (pg : page) : page :=
  addEventListener toggleBtn (ToggleClick true front back toggleBtn)
    (defaultState front back toggleBtn pg).

Definition wire (owner : script) (front back toggleBtn : ref) (pg : page) : page :=
  let pg' := prepared front back toggleBtn pg in
  foldl (makeActivatable owner) pg' (clickable pg' front back).

End Binder.

(** ** anatomy.js: the hash-route binder *)
Module AnatomyJs.

Definition ROUTE_PREFIX : string := "#/workouts/diagram".

(** The object literal, read as the finite map of its own keys. *)
Definition muscleToTemplate : gmap string string :=
  list_to_map
    [ ("chest", "chest-template");
      ("biceps", "biceps-template");
      ("biceps2", "biceps2-template");
      ("abs", "abs-template");
      ("quadsL", "quadsL-template");
      ("quadsR", "quadsR-template");
      ("traps", "traps-template");
      ("deltsL", "deltsL-template");
      ("deltsR", "deltsR-template");
      ("lats", "lats-template");
      ("glutes", "glutes-template");
      ("hamsL", "hamsL-template");
      ("hamsR", "hamsR-template") ].

Definition isDiagramRoute (pg : page) : bool := startsWith (hash pg) ROUTE_PREFIX.

(** The template literal of line 35: the route that reflects a template. *)
Definition encodeSelection (tplId : string) : string :=
  ROUTE_PREFIX +:+ "/" +:+ replace "-template" "" tplId.

(** [document.getElementById(tplId)] is looked up among the templates of
    the page; [Browser.showTemplate] has the lookup in any document. *)
Definition showTemplate (tplId : string) (pg : page) : page :=
  match templates pg !! tplId, app pg with
  | Some content, Some _ =>
      Page (encodeSelection tplId) (Some (length (frags pg)))
           (frags pg ++ [content]) (store pg) (templates pg) (console pg)
  | _, _ => pg
  end.

Definition bindDiagram (root : option ref) (pg : page) : bool * page :=
  match root with
  | None => (false, pg)
  | Some root =>
      if bool_decide (dataset_bound (props_of pg root) = Some "1") then (false, pg)
      else
        match Binder.resolve pg root with
        | None => (false, pg)
        | Some (front, back, toggleBtn) =>
            (true, update root (set_bound "1")
                     (Binder.wire AnatomyScript front back toggleBtn pg))
        end
  end.

(** [hasDiagram] of line 85, with the [section] it was computed from. *)
Definition findDiagram (pg : page) : option ref * bool :=
  let section := app_querySelector pg (TagClass "section" "card") in
  (section,
   match section with
   | None => false
   | Some s =>
       bool_decide (is_Some (querySelector pg s (ById "frontView")))
       || bool_decide (is_Some (querySelector pg s (ById "backView")))
   end).

(** Lines 83-87 of the closure [tick]: did it bind, did it call
    [bindDiagram], and the page after. *)
Definition attempt (pg : page) : bool * bool * page :=
  let '(section, hasDiagram) := findDiagram pg in
  if hasDiagram then
    let '(ok, pg') := bindDiagram section pg in (ok, true, pg')
  else (false, false, pg).

Inductive verdict := Bound | GaveUp | NotDiagramRoute.

(** What a session did: ticks run, calls of [bindDiagram], milliseconds
    asked from [setTimeout], and how it ended. *)
Record session := Session {
  ticks : nat;
  bindCalls : nat;
  waitedMs : nat;
  ending : verdict }.

(** The closure [tick] with its counter [tries].  Between two ticks the rest
    of the page runs: [host k] is what it does to the page while timer
    number [k] is pending.  [fuel] bounds the unfolding only. *)
Fixpoint tick (fuel : nat) (host : nat -> page -> page) (maxTries delayMs : nat)
    (tries calls : nat) (pg : page) : option (session * page) :=
  match fuel with
  | O => None
  | S fuel' =>
      let '(ok, called, pg') := attempt pg in
      let calls' := if called then S calls else calls in
      if ok then Some (Session (S tries) calls' (tries * delayMs) Bound, pg')
      else
        let tries' := S tries in
        if (maxTries <=? tries')%nat
        then Some (Session tries' calls' (tries * delayMs) GaveUp, pg')
        else tick fuel' host maxTries delayMs tries' calls' (host tries pg')
  end.

Definition tryBindWithRetries (host : nat -> page -> page) (maxTries delayMs : nat)
    (pg : page) : option (session * page) :=
  if isDiagramRoute pg then tick (S maxTries) host maxTries delayMs 0 0 pg
  else Some (Session 0 0 0 NotDiagramRoute, pg).

End AnatomyJs.

(** ** part_000: the autowire script *)
Module Autowire.

Definition muscleToTemplate : gmap string string :=
  list_to_map
    [ ("chest", "chest-template");
      ("biceps", "biceps-template");
      ("biceps2", "biceps2-template");
      ("abs", "abs-template");
      ("quadsL", "quadsL-template");
      ("quadsR", "quadsR-template");
      ("traps", "traps-template");
      ("deltsL", "deltsL-template");
      ("deltsR", "deltsR-template");
      ("lats", "lats-template");
      ("glutes", "glutes-template");
      ("hamsL", "hamsL-template");
      ("hamsR", "hamsR-template") ].

Definition showTemplate (tplId : string) (pg : page) : page :=
  match templates pg !! tplId, app pg with
  | Some content, Some _ =>
      Page ("#/workouts/diagram/" +:+ replace "-template" "" tplId)
           (Some (length (frags pg)))
           (frags pg ++ [content]) (store pg) (templates pg) (console pg)
  | _, _ => pg
  end.

(** Lines 32-68: no marker is read and none is written.  [root] is an
    element at the only call site. *)
Definition initBodyDiagram (root : ref) (pg : page) : bool * page :=
  match Binder.resolve pg root with
  | None => (false, pg)
  | Some (front, back, toggleBtn) =>
      (true, Binder.wire AutowireScript front back toggleBtn pg)
  end.

(** Lines 70-78; also the callback of the MutationObserver of line 85. *)
Definition tryInit (pg : page) : page :=
  match app pg with
  | None => pg
  | Some _ =>
      match app_querySelector pg (TagClass "section" "card") with
      | None => pg
      | Some card =>
          if bool_decide (is_Some (querySelector pg card (ById "frontView")))
             || bool_decide (is_Some (querySelector pg card (ById "backView")))
          then (initBodyDiagram card pg).2
          else pg
      end
  end.

End Autowire.

(** ** Activation: what the installed closures do when they run

    An event is delivered to the listeners of the element it is dispatched
    on, in the order they were added.  This module stops there: the travel
    of the event through the enclosing elements, and what the document
    around the surface adds to a lookup, are followed in [Browser]. *)
Module Events.

Definition table (owner : script) : gmap string string :=
  match owner with
  | AnatomyScript => AnatomyJs.muscleToTemplate
  | AutowireScript => Autowire.muscleToTemplate
  end.

Definition showTemplate (owner : script) : string -> page -> page :=
  match owner with
  | AnatomyScript => AnatomyJs.showTemplate
  | AutowireScript => Autowire.showTemplate
  end.

(** The toggle closure, stored as listener [i] of [host]. *)
Definition toggleHandler (host : ref) (i : nat) (isFront : bool)
    (front back toggleBtn : ref) (pg : page) : page :=
  let isFront := negb isFront in
  let pg := update host (fun p =>
              set_listeners (<[i := ToggleClick isFront front back toggleBtn]> (listeners p)) p) pg in
  let pg := update front (set_display (if isFront then "block" else "none")) pg in
  let pg := update back (set_display (if isFront then "none" else "block")) pg in
  update toggleBtn
    (set_textContent (if isFront then "Show Back View" else "Show Front View")) pg.

(** The click closure of a hit element, with the table read as the map of
    its own keys. [if (tpl)] is false for a missing entry and for the empty
    string. *)
Definition hitClickHandler (owner : script) (el : ref) (pg : page) : page :=
  match table owner !! id_of pg el with
  | Some tpl =>
      if bool_decide (tpl = "") then warn ["No template mapped for"; id_of pg el] pg
      else showTemplate owner tpl pg
  | None => warn ["No template mapped for"; id_of pg el] pg
  end.

Definition run_click (el : ref) (pg : page) (i : nat) : page :=
  match listeners (props_of pg el) !! i with
  | Some (ToggleClick isFront front back toggleBtn) =>
      toggleHandler el i isFront front back toggleBtn pg
  | Some (HitClick owner e) => hitClickHandler owner e pg
  | Some (HitKeydown _) | None => pg
  end.

(** What a click dispatched on [el] runs at [el] itself: its click
    listeners, in the order they were added. *)
Definition click (el : ref) (pg : page) : page :=
  foldl (run_click el) pg (seq 0 (length (listeners (props_of pg el)))).

(** The keydown closure of a hit element that has a [click] method, the
    click taken at the element itself; the boolean is
    [e.defaultPrevented]. *)
Definition hitKeydownHandler (el : ref) (key : string) (st : bool * page) : bool * page :=
  if bool_decide (key = "Enter") || bool_decide (key = " ")
  then (true, click el st.2)
  else st.

Definition run_keydown (el : ref) (key : string) (st : bool * page) (i : nat) : bool * page :=
  match listeners (props_of st.2 el) !! i with
  | Some (HitKeydown e) => hitKeydownHandler e key st
  | _ => st
  end.

(** A key pressed while [el] has the focus, at [el] itself. *)
Definition keydown (el : ref) (key : string) (pg : page) : bool * page :=
  foldl (run_keydown el key) (false, pg) (seq 0 (length (listeners (props_of pg el)))).

End Events.

(** ** anatomy.js, second part: the hotspot table of the React component

    Finite JS numbers are taken as exact rationals; every literal of the
    table has one decimal.  [Hotspots] has [clamp] over all numbers, NaN
    and the infinities included. *)
Module AnatomyDiagram.

Inductive AnatomyView := front | back.

Record Box := mkBox { left : Q; top : Q; width : Q; height : Q }.

Record MuscleRegion := mkRegion {
  key : string;
  label : string;
  view : AnatomyView;
  box : Box }.

Definition SAMPLE_REGIONS : list MuscleRegion :=
  [ mkRegion "shoulders" "Deltoids" front (mkBox (428#10) (210#10) (144#10) (60#10));
    mkRegion "chest" "Chest (Pectorals)" front (mkBox (410#10) (275#10) (180#10) (75#10));
    mkRegion "biceps" "Biceps" front (mkBox (355#10) (295#10) (70#10) (100#10));
    mkRegion "triceps" "Triceps" front (mkBox (575#10) (295#10) (70#10) (100#10));
    mkRegion "abs" "Abs (Rectus Abdominis)" front (mkBox (450#10) (369#10) (100#10) (110#10));
    mkRegion "obliques" "Obliques" front (mkBox (395#10) (380#10) (210#10) (100#10));
    mkRegion "quads" "Quads" front (mkBox (440#10) (520#10) (120#10) (170#10));
    mkRegion "adductors" "Adductors" front (mkBox (470#10) (500#10) (60#10) (100#10));
    mkRegion "calves_f" "Calves" front (mkBox (453#10) (725#10) (94#10) (120#10));
    mkRegion "traps" "Trapezius" back (mkBox (440#10) (225#10) (120#10) (70#10));
    mkRegion "lats" "Lats" back (mkBox (410#10) (300#10) (180#10) (100#10));
    mkRegion "erectors" "Spinal Erectors" back (mkBox (460#10) (380#10) (80#10) (110#10));
    mkRegion "glutes" "Glutes" back (mkBox (440#10) (495#10) (120#10) (100#10));
    mkRegion "hamstrings" "Hamstrings" back (mkBox (440#10) (575#10) (120#10) (140#10));
    mkRegion "calves_b" "Calves" back (mkBox (453#10) (730#10) (94#10) (120#10)) ].

(** [Math.max(min, Math.min(max, n))]. *)
Definition clamp_between (n min max : Q) : Q := Qmax min (Qmin max n).

(** [clamp(n)] with the defaults [min = 0], [max = 100]. *)
Definition clamp (n : Q) : Q := clamp_between n 0 100.

Definition view_eqb (a b : AnatomyView) : bool :=
  match a, b with front, front | back, back => true | _, _ => false end.

(** [regions.filter((r) => r.view === currentView)]. *)
Definition filtered (regions : list MuscleRegion) (currentView : AnatomyView)
  : list MuscleRegion :=
  List.filter (fun r => view_eqb (view r) currentView) regions.

(** The [style] of the button rendered for a region, in percent. *)
Definition hotspotStyle (r : MuscleRegion) : Box :=
  mkBox (clamp (left (box r))) (clamp (top (box r)))
        (clamp (width (box r))) (clamp (height (box r))).

End AnatomyDiagram.

(** ** Vocabulary of the properties *)
Module Vocabulary.
Import Binder Events.

(** The page tick [k+1] of a session finds, when the ticks before it left
    the page as it was: the host's steps, one per pending timer. *)
Fixpoint pageAt (host : nat -> page -> page) (pg : page) (k : nat) : page :=
  match k with
  | O => pg
  | S k' => host k' (pageAt host pg k')
  end.


(** The container holds the surface [s]: the section is there with its two
    view containers and its toggle, and nobody bound it yet. *)
Definition surfaceReady (pg : page) (s : ref) : Prop :=
  app_querySelector pg (TagClass "section" "card") = Some s
  /\ dataset_bound (props_of pg s) <> Some "1"
  /\ is_Some (resolve pg s).

(** Reading a route back, as the specification words it: what follows the
    given prefix.  Neither script has a decoder. *)
Fixpoint stripPrefix (p s : string) : option string :=
  match p, s with
  | EmptyString, _ => Some s
  | String a p', String c s' => if Ascii.eqb a c then stripPrefix p' s' else None
  | String _ _, EmptyString => None
  end.

(** A listener without the variable it closed over: which code is attached,
    and to what. *)
Inductive code :=
| ToggleCode (front back toggleBtn : ref)
| KeydownCode (el : ref)
| ClickCode (owner : script) (el : ref).

Definition code_of (l : listener) : code :=
  match l with
  | ToggleClick _ f b t => ToggleCode f b t
  | HitKeydown el => KeydownCode el
  | HitClick o el => ClickCode o el
  end.

(** All listeners installed on a page. *)
Definition listenerCount (pg : page) : nat :=
  map_fold (fun _ p n => (length (listeners p) + n)%nat) 0%nat (store pg).

(** The two binders behind one name. *)
Definition bind (owner : script) (root : ref) (pg : page) : bool * page :=
  match owner with
  | AnatomyScript => AnatomyJs.bindDiagram (Some root) pg
  | AutowireScript => Autowire.initBodyDiagram root pg
  end.

(** What [bindDiagram] adds after the shared steps: the marker of line 73. *)
Definition marked (owner : script) (root : ref) (pg : page) : page :=
  match owner with
  | AnatomyScript => update root (set_bound "1") pg
  | AutowireScript => pg
  end.

(** The listeners the [forEach] adds to [r] while it walks [els]. *)
Definition installed (owner : script) (r : ref) (els : list ref) : list listener :=
  flat_map (fun el => if decide (el = r) then [HitKeydown r; HitClick owner r] else []) els.

(** The toggle closure of a bind sits at position [n] among the listeners
    of the toggle control, with [isFront = c]; the listeners after it are
    the ones the [forEach] added (none when the control is outside both
    views). *)
Definition toggleAt (pg : page) (t : ref) (n : nat) (c : bool) (f b : ref)
    (after : list listener) : Prop :=
  exists before, listeners (props_of pg t) = before ++ ToggleClick c f b t :: after
                 /\ length before = n.

Definition hitListenersOf (t : ref) (ls : list listener) : Prop :=
  Forall (fun l => l = HitKeydown t \/ exists o, l = HitClick o t) ls.

Definition shown (isFront : bool) : string := if isFront then "block" else "none".
Definition hidden (isFront : bool) : string := if isFront then "none" else "block".
Definition labelFor (isFront : bool) : string :=
  if isFront then "Show Back View" else "Show Front View".

(** A rendered surface: toggle, front view with two regions (one of them
    without a template), back view with one region. *)
Definition surface : fragment :=
  [ Node "section" None ["card"]
      [ Node "button" (Some "toggleViewBtn") [] [];
        Node "div" (Some "frontView") []
          [ Node "g" (Some "chest") [] []; Node "g" (Some "calves") [] [] ];
        Node "div" (Some "backView") [] [ Node "g" (Some "lats") [] [] ] ] ].

Definition someTemplates : gmap string fragment :=
  list_to_map [ ("chest-template", [Node "h1" None [] []]);
                ("lats-template", [Node "h1" None [] []]) ].

Definition mounted : page :=
  Page "#/workouts/diagram" (Some 0%nat) [surface] ∅ someTemplates [].

(** The same route with nothing rendered yet. *)
Definition waiting : page :=
  Page "#/workouts/diagram" (Some 0%nat) [[]] ∅ someTemplates [].

(** A host that renders the surface while timer [k] is pending. *)
Definition rendersAt (k : nat) (j : nat) (pg : page) : page :=
  if (j =? k)%nat
  then Page (hash pg) (Some (length (frags pg))) (frags pg ++ [surface])
            (store pg) (templates pg) (console pg)
  else pg.

Definition idle (j : nat) (pg : page) : page := pg.

(** A surface whose toggle control is not rendered yet. *)
Definition halfSurface : fragment :=
  [ Node "section" None ["card"]
      [ Node "div" (Some "frontView") [] [ Node "g" (Some "chest") [] [] ];
        Node "div" (Some "backView") [] [] ] ].

Definition halfMounted : page :=
  Page "#/workouts/diagram" (Some 0%nat) [halfSurface] ∅ someTemplates [].

Definition section0 : ref := (0%nat, [0%nat]).

Definition toggle0 : ref := (0%nat, [0%nat; 0%nat]).
Definition front0 : ref := (0%nat, [0%nat; 1%nat]).
Definition back0 : ref := (0%nat, [0%nat; 2%nat]).
Definition chest0 : ref := (0%nat, [0%nat; 1%nat; 0%nat]).
Definition calves0 : ref := (0%nat, [0%nat; 1%nat; 1%nat]).

End Vocabulary.
Import Vocabulary.

(** ** anatomy.js, lines 95-101: the page-level listeners

    Both [hashchange] and [DOMContentLoaded] run the same callback, with
    the default arguments of [tryBindWithRetries]. *)
Module Listeners.

Definition onRouteEvent (host : nat -> page -> page) (pg : page)
  : option (AnatomyJs.session * page) :=
  if AnatomyJs.isDiagramRoute pg
  then AnatomyJs.tryBindWithRetries host 40 50 pg
  else Some (AnatomyJs.Session 0 0 0 AnatomyJs.NotDiagramRoute, pg).

End Listeners.

(** ** anatomy.js, lines 164-283: the state of the React component

    The four [useState] cells, the closures that set them and what a render
    shows of them.  [selected] keeps the calls of the optional [onSelect]
    callback, latest last. *)
Module Component.
Import AnatomyDiagram.

Record Props := mkProps {
  p_view : option AnatomyView;
  p_regions : option (list MuscleRegion);
  p_onSelect : bool;
  p_showViewToggle : option bool;
  p_initialDebug : option bool }.

Record State := mkState {
  hoverKey : option string;
  activeKey : option string;
  debug : bool;
  currentView : AnatomyView;
  selected : list MuscleRegion }.

(** The first render: [useState(null)], [useState(null)],
    [useState(initialDebug)], [useState(view)]. *)
Definition mount (p : Props) : State :=
  mkState None None (default false (p_initialDebug p)) (default front (p_view p)) [].

(** [setCurrentView((v) => (v === "front" ? "back" : "front"))]. *)
Definition toggleView (st : State) : State :=
  mkState (hoverKey st) (activeKey st) (debug st)
          (match currentView st with front => back | back => front end) (selected st).

(** [setDebug((d) => !d)]. *)
Definition toggleDebug (st : State) : State :=
  mkState (hoverKey st) (activeKey st) (negb (debug st)) (currentView st) (selected st).

(** [setHoverKey(r.key)]. *)
Definition mouseEnter (r : MuscleRegion) (st : State) : State :=
  mkState (Some (key r)) (activeKey st) (debug st) (currentView st) (selected st).

(** [setHoverKey((k) => (k === r.key ? null : k))]. *)
Definition mouseLeave (r : MuscleRegion) (st : State) : State :=
  mkState (if bool_decide (hoverKey st = Some (key r)) then None else hoverKey st)
          (activeKey st) (debug st) (currentView st) (selected st).

(** [setActiveKey(r.key); onSelect?.(r)]. *)
Definition selectRegion (p : Props) (r : MuscleRegion) (st : State) : State :=
  mkState (hoverKey st) (Some (key r)) (debug st) (currentView st)
          (if p_onSelect p then selected st ++ [r] else selected st).

(** [filtered]: [regions] defaults to [SAMPLE_REGIONS]. *)
Definition visible (p : Props) (st : State) : list MuscleRegion :=
  filtered (default SAMPLE_REGIONS (p_regions p)) (currentView st).

(** One rendered hotspot button: its region, its [style], and whether the
    highlight and the debug tint classes are on. *)
Record Hotspot := mkHotspot {
  h_region : MuscleRegion;
  h_style : Box;
  h_highlight : bool;
  h_tint : bool }.

Definition hotspot (st : State) (r : MuscleRegion) : Hotspot :=
  mkHotspot r (hotspotStyle r)
    (bool_decide (hoverKey st = Some (key r)) || bool_decide (activeKey st = Some (key r)))
    (debug st).

Definition render (p : Props) (st : State) : list Hotspot :=
  hotspot st <$> visible p st.

(** The text of the view button, when [showViewToggle] lets it render. *)
Definition viewButton (p : Props) (st : State) : option string :=
  if default true (p_showViewToggle p)
  then Some (match currentView st with front => "Show Back" | back => "Show Front" end)
  else None.

Definition debugButton (st : State) : string :=
  if debug st then "Hide Boxes" else "Debug Boxes".

(** The legend chip: absent when [hoverKey] is falsy ([null] or the empty
    string); otherwise present, with the label of the hovered region if one
    of the rendered regions has that key, and empty if none has. *)
Definition legend (p : Props) (st : State) : option (option string) :=
  match hoverKey st with
  | None => None
  | Some k =>
      if bool_decide (k = "") then None
      else Some (label <$> List.find (fun r => bool_decide (key r = k)) (visible p st))
  end.

(** What the user does to the component. *)
Inductive Event :=
| ClickView
| ClickDebug
| Enter (r : MuscleRegion)
| Leave (r : MuscleRegion)
| Select (r : MuscleRegion).

Definition handle (p : Props) (st : State) (e : Event) : State :=
  match e with
  | ClickView => toggleView st
  | ClickDebug => toggleDebug st
  | Enter r => mouseEnter r st
  | Leave r => mouseLeave r st
  | Select r => selectRegion p r st
  end.

End Component.

(** ** Further vocabulary *)
Module Terms.
Import Binder Events.

(** A pointer activation of an element, or a key pressed on it, as
    [Events] delivers them. *)
Inductive activation :=
| Pointer (el : ref)
| Key (el : ref) (key : string).

Definition activate (pg : page) (a : activation) : page :=
  match a with
  | Pointer el => click el pg
  | Key el k => (keydown el k pg).2
  end.

(** What no closure ever writes on an element: role, tab index, marker,
    and which code is attached to it. *)
Definition kept (pg pg' : page) : Prop :=
  forall r,
    role (props_of pg' r) = role (props_of pg r)
    /\ tabIndex (props_of pg' r) = tabIndex (props_of pg r)
    /\ dataset_bound (props_of pg' r) = dataset_bound (props_of pg r)
    /\ code_of <$> listeners (props_of pg' r) = code_of <$> listeners (props_of pg r).

(** [pg'] shows the same elements to every query as [pg]: same fragments,
    same [#app], and text written only over elements without children. *)
Definition agrees (pg pg' : page) : Prop :=
  frags pg' = frags pg /\ app pg' = app pg
  /\ forall q, textContent (props_of pg' q) = textContent (props_of pg q)
               \/ exists nt, node_of pg q = Some nt /\ childNodes nt = [].

(** [r] lies strictly below [root], in the same fragment. *)
Definition inside (root r : ref) : Prop :=
  r.1 = root.1 /\ exists s : path, s <> [] /\ r.2 = root.2 ++ s.

(** The tick that finds this page does not bind. *)
Definition failing (pg : page) : Prop := (AnatomyJs.attempt pg).1.1 = false.

(** Among the [k] ticks from tick [t+1] on, those that found a diagram and
    so called [bindDiagram]. *)
Definition sawDiagram (host : nat -> page -> page) (pg : page) (t k : nat) : nat :=
  length (filter (fun j => (AnatomyJs.findDiagram (pageAt host pg j)).2 = true) (seq t k)).

Definition is_toggle (l : listener) : bool :=
  match l with ToggleClick _ _ _ _ => true | _ => false end.

(** Toggle closures attached to an element. *)
Definition toggleClosures (pg : page) (r : ref) : nat :=
  length (List.filter is_toggle (listeners (props_of pg r))).

(** The regions a trace selected, in order, and its clicks on the view
    button. *)
Definition selects (es : list Component.Event) : list AnatomyDiagram.MuscleRegion :=
  omap (fun e => match e with Component.Select r => Some r | _ => None end) es.

Definition viewClicks (es : list Component.Event) : nat :=
  length (List.filter (fun e => match e with Component.ClickView => true | _ => false end) es).

Definition otherView (v : AnatomyDiagram.AnatomyView) : AnatomyDiagram.AnatomyView :=
  match v with AnatomyDiagram.front => AnatomyDiagram.back
             | AnatomyDiagram.back => AnatomyDiagram.front end.

Fixpoint hyphenFree (s : string) : bool :=
  match s with
  | EmptyString => true
  | String c s' => negb (Ascii.eqb c "-") && hyphenFree s'
  end.

(** The rendered surface in a document without any template element. *)
Definition bare : page :=
  Page "#/workouts/diagram" (Some 0%nat) [surface] ∅ ∅ [].

Definition boundBare : page := (AnatomyJs.bindDiagram (Some section0) bare).2.

(** A surface the anatomy script has bound, still mounted. *)
Definition boundMounted : page := (AnatomyJs.bindDiagram (Some section0) mounted).2.

End Terms.
Import Terms.

(** ** The document around the surface

    [Events] runs the listeners of one element.  Here the same closures run
    inside the browser: an event travels from its target through the
    enclosing elements, [document.getElementById] finds whatever element
    bears the id, a property read on the table follows the prototype chain,
    [click()] exists on HTML elements only, and an exception thrown by a
    listener ends that listener and is reported.  What the scripts cannot
    see of the document is the environment [env].  Elements are enabled: a
    disabled form control gets no click from either source. *)
Module Browser.
Import Events.

(** What [document.getElementById(id)] returns for an id other than
    ['app']: nothing, a [<template>] with its content, or an element of
    another kind (whose [content] is undefined). *)
Inductive found :=
| NoElement
| TemplateElement (content : fragment)
| OtherElement.

Record env := Env {
  getElementById : page -> string -> found;
  hasClick : ref -> bool;                  (* the element is an HTMLElement *)
  memberText : string -> string }.         (* String(Object.prototype[name]) *)

(** The property names every object inherits from [Object.prototype]. *)
Definition objectPrototype : list string :=
  [ "constructor"; "hasOwnProperty"; "isPrototypeOf"; "propertyIsEnumerable";
    "toLocaleString"; "toString"; "valueOf"; "__proto__";
    "__defineGetter__"; "__defineSetter__"; "__lookupGetter__"; "__lookupSetter__" ].

(** The defined results of [muscleToTemplate[id]]: a string of the table,
    or the inherited member of that name (a function or an object). *)
Inductive value :=
| Str (s : string)
| Inherited (name : string).

Definition lookup (owner : script) (id : string) : option value :=
  match table owner !! id with
  | Some tpl => Some (Str tpl)
  | None => if bool_decide (id ∈ objectPrototype) then Some (Inherited id) else None
  end.

Definition truthy (v : value) : bool :=
  match v with
  | Str s => negb (bool_decide (s = ""))
  | Inherited _ => true
  end.

Definition text (e : env) (v : value) : string :=
  match v with
  | Str s => s
  | Inherited name => memberText e name
  end.

(** The three places where the closures can throw, a [TypeError] each. *)
Inductive error :=
| ContentOfNonTemplate       (* t.content.cloneNode, t not a template *)
| ReplaceOfNonString         (* tplId.replace, tplId not a string *)
| ClickOfNonHTMLElement.     (* el.click(), el without that method *)

Record world := World {
  page_of : page;
  uncaught : list error }.

Definition route (owner : script) (tplId : string) : string :=
  match owner with
  | AnatomyScript => AnatomyJs.encodeSelection tplId
  | AutowireScript => "#/workouts/diagram/" +:+ replace "-template" "" tplId
  end.

(** [app.innerHTML = ''; app.appendChild(content)]. *)
Definition mount (content : fragment) (pg : page) : page :=
  Page (hash pg) (Some (length (frags pg))) (frags pg ++ [content])
       (store pg) (templates pg) (console pg).

(** [window.location.hash = h].  Only routes of table entries are ever
    assigned; they hold no character a URL would escape. *)
Definition set_hash (h : string) (pg : page) : page :=
  Page h (app pg) (frags pg) (store pg) (templates pg) (console pg).

(** [showTemplate(tplId)], statement by statement: both lookups, the
    early return, the emptying of [#app], the clone of [t.content], the
    write to [location.hash]. *)
Definition showTemplate (e : env) (owner : script) (tplId : value) (w : world) : world :=
  let pg := page_of w in
  match getElementById e pg (text e tplId), app pg with
  | NoElement, _ => w
  | _, None => w
  | OtherElement, Some _ => World (mount [] pg) (uncaught w ++ [ContentOfNonTemplate])
  | TemplateElement content, Some _ =>
      match tplId with
      | Str s => World (set_hash (route owner s) (mount content pg)) (uncaught w)
      | Inherited _ => World (mount content pg) (uncaught w ++ [ReplaceOfNonString])
      end
  end.

(** The click closure of a hit element. *)
Definition hitClick (e : env) (owner : script) (el : ref) (w : world) : world :=
  let id := id_of (page_of w) el in
  match lookup owner id with
  | Some tpl =>
      if truthy tpl then showTemplate e owner tpl w
      else World (warn ["No template mapped for"; id] (page_of w)) (uncaught w)
  | None => World (warn ["No template mapped for"; id] (page_of w)) (uncaught w)
  end.

(** The enclosing elements of the element at [p], nearest first. *)
Fixpoint parents (n : nat) (p : path) : list path :=
  match n with
  | O => []
  | S n' =>
      match removelast p with
      | [] => []
      | i :: q => (i :: q) :: parents n' (i :: q)
      end
  end.

(** An element whose children were replaced by text no longer encloses
    them. *)
Fixpoint enclosing (pg : page) (g : nat) (qs : list path) : list ref :=
  match qs with
  | [] => []
  | q :: qs' => if text_only pg g q then [] else (g, q) :: enclosing pg g qs'
  end.

(** The elements an event dispatched on [el] visits, target first. *)
Definition eventPath (pg : page) (el : ref) : list ref :=
  el :: enclosing pg el.1 (parents (length el.2) el.2).

Definition run_click (e : env) (a : ref) (w : world) (i : nat) : world :=
  match listeners (props_of (page_of w) a) !! i with
  | Some (ToggleClick isFront front back toggleBtn) =>
      World (toggleHandler a i isFront front back toggleBtn (page_of w)) (uncaught w)
  | Some (HitClick owner el) => hitClick e owner el w
  | Some (HitKeydown _) | None => w
  end.

(** The click listeners of one element of the path. *)
Definition invoke_click (e : env) (w : world) (a : ref) : world :=
  foldl (run_click e a) w (seq 0 (length (listeners (props_of (page_of w) a)))).

(** [el.click()] on an HTML element, and a pointer activation of [el]. *)
Definition click (e : env) (el : ref) (w : world) : world :=
  foldl (invoke_click e) w (eventPath (page_of w) el).

(** The keydown closure of a hit element; the boolean is
    [e.defaultPrevented]. *)
Definition hitKeydown (e : env) (el : ref) (key : string) (st : bool * world)
  : bool * world :=
  if bool_decide (key = "Enter") || bool_decide (key = " ")
  then (true,
        if hasClick e el then click e el st.2
        else World (page_of st.2) (uncaught st.2 ++ [ClickOfNonHTMLElement]))
  else st.

Definition run_keydown (e : env) (a : ref) (key : string) (st : bool * world) (i : nat)
  : bool * world :=
  match listeners (props_of (page_of st.2) a) !! i with
  | Some (HitKeydown el) => hitKeydown e el key st
  | _ => st
  end.

Definition invoke_keydown (e : env) (key : string) (st : bool * world) (a : ref)
  : bool * world :=
  foldl (run_keydown e a key) st
        (seq 0 (length (listeners (props_of (page_of st.2) a)))).

(** A key pressed while [el] has the focus. *)
Definition keydown (e : env) (el : ref) (key : string) (w : world) : bool * world :=
  foldl (invoke_keydown e key) (false, w) (eventPath (page_of w) el).

End Browser.

(** ** JS numbers

    A number is NaN, an infinity, or a finite value, taken as an exact
    rational.  A [regions] prop can carry any of them. *)
Module JsNumber.

Inductive number :=
| NaN
| NegInfinity
| Finite (q : Q)
| Infinity.

(** [a <= b]: false as soon as one side is NaN. *)
Definition le (a b : number) : bool :=
  match a, b with
  | NaN, _ => false
  | _, NaN => false
  | NegInfinity, _ => true
  | _, Infinity => true
  | Finite x, Finite y => Qle_bool x y
  | Finite _, NegInfinity => false
  | Infinity, _ => false
  end.

(** [Math.max(a, b)] and [Math.min(a, b)]: NaN as soon as one argument is. *)
Definition Math_max (a b : number) : number :=
  match a, b with
  | NaN, _ => NaN
  | _, NaN => NaN
  | _, _ => if le a b then b else a
  end.

Definition Math_min (a b : number) : number :=
  match a, b with
  | NaN, _ => NaN
  | _, NaN => NaN
  | _, _ => if le a b then a else b
  end.

(** [a + b]. *)
Definition add (a b : number) : number :=
  match a, b with
  | NaN, _ => NaN
  | _, NaN => NaN
  | Infinity, NegInfinity => NaN
  | NegInfinity, Infinity => NaN
  | Infinity, _ => Infinity
  | _, Infinity => Infinity
  | NegInfinity, _ => NegInfinity
  | _, NegInfinity => NegInfinity
  | Finite x, Finite y => Finite (x + y)
  end.

End JsNumber.

(** ** The hotspots, over all JS numbers

    Lines 162-190 and 240-272 of anatomy.js once more, with the numbers of
    a box as the component receives them. *)
Module Hotspots.
Import JsNumber.

Record Box := mkBox { left : number; top : number; width : number; height : number }.

Record MuscleRegion := mkRegion {
  key : string;
  label : string;
  view : AnatomyDiagram.AnatomyView;
  box : Box }.

(** A row of the table of lines 109-160: its numbers are finite. *)
Definition row (r : AnatomyDiagram.MuscleRegion) : MuscleRegion :=
  mkRegion (AnatomyDiagram.key r) (AnatomyDiagram.label r) (AnatomyDiagram.view r)
    (mkBox (Finite (AnatomyDiagram.left (AnatomyDiagram.box r)))
           (Finite (AnatomyDiagram.top (AnatomyDiagram.box r)))
           (Finite (AnatomyDiagram.width (AnatomyDiagram.box r)))
           (Finite (AnatomyDiagram.height (AnatomyDiagram.box r)))).

Definition SAMPLE_REGIONS : list MuscleRegion := row <$> AnatomyDiagram.SAMPLE_REGIONS.

(** [Math.max(min, Math.min(max, n))]. *)
Definition clamp_between (n min max : number) : number := Math_max min (Math_min max n).

Definition clamp (n : number) : number := clamp_between n (Finite 0) (Finite 100).

Definition filtered (regions : list MuscleRegion) (currentView : AnatomyDiagram.AnatomyView)
  : list MuscleRegion :=
  List.filter (fun r => AnatomyDiagram.view_eqb (view r) currentView) regions.

(** The numbers put before the percent signs of the [style]. *)
Definition hotspotStyle (r : MuscleRegion) : Box :=
  mkBox (clamp (left (box r))) (clamp (top (box r)))
        (clamp (width (box r))) (clamp (height (box r))).

Record Hotspot := mkHotspot {
  h_region : MuscleRegion;
  h_style : Box;
  h_highlight : bool;
  h_tint : bool }.

Definition hotspot (st : Component.State) (r : MuscleRegion) : Hotspot :=
  mkHotspot r (hotspotStyle r)
    (bool_decide (Component.hoverKey st = Some (key r))
     || bool_decide (Component.activeKey st = Some (key r)))
    (Component.debug st).

(** The hotspots of a render: [regions] defaults to [SAMPLE_REGIONS]. *)
Definition render (regions : option (list MuscleRegion)) (st : Component.State)
  : list Hotspot :=
  hotspot st <$> filtered (default SAMPLE_REGIONS regions) (Component.currentView st).

End Hotspots.

(** ** Vocabulary of the properties of the document and of the numbers *)
Module Observations.
Import Binder Events Browser JsNumber.

(** A document whose only elements with an id, besides the surface, are
    the templates of the page; every element is an HTML element. *)
Definition plainEnv : env :=
  Env (fun pg id => match templates pg !! id with
                    | Some content => TemplateElement content
                    | None => NoElement
                    end)
      (fun _ => true)
      (fun _ => "function () { [native code] }").







Definition is_keydown (l : listener) : bool :=
  match l with HitKeydown _ => true | _ => false end.

Definition keydownFree (pg : page) (a : ref) : Prop :=
  Forall (fun l => is_keydown l = false) (listeners (props_of pg a)).

(** [el] carries one keydown closure, its own. *)
Definition oneKeydown (pg : page) (el : ref) : Prop :=
  exists before after,
    listeners (props_of pg el) = before ++ HitKeydown el :: after
    /\ Forall (fun l => is_keydown l = false) before
    /\ Forall (fun l => is_keydown l = false) after.





(** A document in which some other element bears the id of the chest
    template. *)
Definition clashingEnv : env :=
  Env (fun _ id => if bool_decide (id = "chest-template") then OtherElement else NoElement)
      (fun _ => true)
      (fun _ => "function () { [native code] }").

(** A number between 0 and 100. *)
Definition bounded (n : number) : Prop :=
  le (Finite 0) n = true /\ le n (Finite 100) = true.

(** What [clamp] makes of a number: NaN of NaN, a bounded number of any
    other. *)
Definition clamped (n s : number) : Prop :=
  (n = NaN -> s = NaN) /\ (n <> NaN -> bounded s).

(** A box stays inside the normalized surface. *)
Definition fits (b : Hotspots.Box) : Prop :=
  le (add (Hotspots.left b) (Hotspots.width b)) (Finite 100) = true
  /\ le (add (Hotspots.top b) (Hotspots.height b)) (Finite 100) = true.

(** A region a caller may pass in [regions]: 80 + 50 exceeds the surface. *)
Definition wide : Hotspots.MuscleRegion :=
  Hotspots.mkRegion "wide" "Wide" AnatomyDiagram.front
    (Hotspots.mkBox (Finite 80) (Finite 0) (Finite 50) (Finite 10)).

(** A region whose left edge was computed from missing data. *)
Definition broken : Hotspots.MuscleRegion :=
  Hotspots.mkRegion "broken" "Broken" AnatomyDiagram.front
    (Hotspots.mkBox NaN (Finite 0) (Finite 50) (Finite 10)).

Definition plainProps : Component.Props := Component.mkProps None None false None None.

End Observations.
Import Observations.

(** ** Reading the store after a write *)
Section StoreFacts.
Import Binder.

Lemma props_of_update_eq r f pg : props_of (update r f pg) r = f (props_of pg r).
Proof. unfold props_of, update; simpl. by rewrite lookup_insert_eq. Qed.

Lemma props_of_update_ne r r' f pg :
  r <> r' -> props_of (update r f pg) r' = props_of pg r'.
Proof. intros Hne. unfold props_of, update; simpl. by rewrite lookup_insert_ne. Qed.

Lemma querySelector_matches pg root sel r :
  querySelector pg root sel = Some r -> matches pg sel r = true.
Proof.
  unfold querySelector, querySelectorAll. intros H.
  apply head_Some_elem_of in H. by apply list_elem_of_filter in H as [H _].
Qed.

Lemma matches_ById_id pg i r : matches pg (ById i) r = true -> id_of pg r = i.
Proof.
  unfold matches, id_of. destruct (node_of pg r) as [n|]; [|done].
  intros H. apply bool_decide_eq_true in H. by rewrite H.
Qed.

Lemma matches_ById_ne pg i j r r' :
  i <> j -> matches pg (ById i) r = true -> matches pg (ById j) r' = true -> r <> r'.
Proof.
  intros Hij Hi Hj ->. apply matches_ById_id in Hi, Hj. congruence.
Qed.

Lemma resolve_Some pg root f b t :
  resolve pg root = Some (f, b, t) ->
  querySelector pg root (ById "frontView") = Some f
  /\ querySelector pg root (ById "backView") = Some b
  /\ querySelector pg root (ById "toggleViewBtn") = Some t.
Proof.
  unfold resolve.
  destruct (querySelector pg root (ById "frontView")); [|done].
  destruct (querySelector pg root (ById "backView")); [|done].
  destruct (querySelector pg root (ById "toggleViewBtn")); [|done].
  by intros [= -> -> ->].
Qed.

Lemma resolve_None pg root :
  querySelector pg root (ById "frontView") = None
  \/ querySelector pg root (ById "backView") = None
  \/ querySelector pg root (ById "toggleViewBtn") = None ->
  resolve pg root = None.
Proof.
  unfold resolve. intros [H | [H | H]]; rewrite H; try done.
  - by destruct (querySelector pg root (ById "frontView")).
  - destruct (querySelector pg root (ById "frontView")); [|done].
    by destruct (querySelector pg root (ById "backView")).
Qed.

Lemma resolve_distinct pg root f b t :
  resolve pg root = Some (f, b, t) -> f <> b /\ id_of pg t = "toggleViewBtn".
Proof.
  intros H. apply resolve_Some in H as (Hf & Hb & Ht).
  apply querySelector_matches in Hf, Hb, Ht. split.
  - by eapply matches_ById_ne; [|exact Hf|exact Hb].
  - by apply matches_ById_id.
Qed.

End StoreFacts.

(** ** Binding *)
Section Binding.
Import Binder.

Lemma bindDiagram_bound root pg :
  dataset_bound (props_of pg root) = Some "1" ->
  AnatomyJs.bindDiagram (Some root) pg = (false, pg).
Proof. intros H. unfold AnatomyJs.bindDiagram. by rewrite bool_decide_eq_true_2. Qed.

Lemma bindDiagram_ready root pg f b t :
  dataset_bound (props_of pg root) <> Some "1" ->
  resolve pg root = Some (f, b, t) ->
  AnatomyJs.bindDiagram (Some root) pg
  = (true, update root (set_bound "1") (wire AnatomyScript f b t pg)).
Proof.
  intros Hb Hr. unfold AnatomyJs.bindDiagram.
  by rewrite bool_decide_eq_false_2, Hr.
Qed.

Lemma bindDiagram_true root pg pg' :
  AnatomyJs.bindDiagram root pg = (true, pg') ->
  exists r f b t, root = Some r /\ resolve pg r = Some (f, b, t)
    /\ pg' = update r (set_bound "1") (wire AnatomyScript f b t pg).
Proof.
  unfold AnatomyJs.bindDiagram. destruct root as [r|]; [|done].
  case_bool_decide; [done|].
  destruct (resolve pg r) as [[[f b] t]|] eqn:Hr; [|done].
  intros [= <-]. by exists r, f, b, t.
Qed.

Lemma bindDiagram_false root pg pg' :
  AnatomyJs.bindDiagram root pg = (false, pg') -> pg' = pg.
Proof.
  unfold AnatomyJs.bindDiagram. destruct root as [r|]; [|by intros [= <-]].
  case_bool_decide; [by intros [= <-]|].
  destruct (resolve pg r) as [[[f b] t]|]; [done|by intros [= <-]].
Qed.

(** The guard of line 39 makes a second call on the same surface a no-op,
    whatever the first one did. *)
Lemma bindDiagram_twice root pg :
  AnatomyJs.bindDiagram root (AnatomyJs.bindDiagram root pg).2
  = (false, (AnatomyJs.bindDiagram root pg).2).
Proof.
  destruct (AnatomyJs.bindDiagram root pg) as [[|] pg'] eqn:H; simpl.
  - apply bindDiagram_true in H as (r & f & b & t & -> & _ & ->).
    apply bindDiagram_bound. by rewrite props_of_update_eq.
  - apply bindDiagram_false in H as H'. by subst pg'.
Qed.

End Binding.

(** ** Claims on binding *)
Section BindingClaims.
Import Binder Events.

(** C5. When the front view container, the back view container or the
    toggle control does not resolve below the surface, either binder
    returns [false] and the page is exactly what it was: no display, no
    label, no listener written. *)
Theorem missing_subelement_no_binding (owner : script) (root : ref) (pg : page) :
  querySelector pg root (ById "frontView") = None
  \/ querySelector pg root (ById "backView") = None
  \/ querySelector pg root (ById "toggleViewBtn") = None ->
  bind owner root pg = (false, pg).
Proof.
  intros H. apply resolve_None in H.
  destruct owner; simpl.
  - unfold AnatomyJs.bindDiagram. case_bool_decide; [done|]. by rewrite H.
  - unfold Autowire.initBodyDiagram. by rewrite H.
Qed.

Lemma missing_subelement_no_binding_witness :
  bind AnatomyScript section0 halfMounted = (false, halfMounted)
  /\ bind AutowireScript section0 halfMounted = (false, halfMounted).
Proof.
  split; apply missing_subelement_no_binding; right; right; vm_compute; reflexivity.
Defined.

(** C1 (the autowire binder breaks it). [initBodyDiagram] keeps no marker:
    called twice on the same rendered surface it returns [true] twice, and
    the second call installs every listener once more (5 listeners become
    10), so that one activation of a region without a template logs two
    warnings.  The observer callback [tryInit] does exactly that on every
    mutation.  [bindDiagram] of anatomy.js on the same surface returns
    [false] the second time and leaves the page as it is. *)
Theorem initBodyDiagram_binds_again :
  let first := Autowire.initBodyDiagram section0 mounted in
  let second := Autowire.initBodyDiagram section0 first.2 in
  first.1 = true /\ second.1 = true
  /\ listenerCount first.2 = 7%nat /\ listenerCount second.2 = 14%nat
  /\ listeners (props_of second.2 toggle0)
     = [ToggleClick true front0 back0 toggle0; ToggleClick true front0 back0 toggle0]
  /\ listeners (props_of second.2 calves0)
     = [HitKeydown calves0; HitClick AutowireScript calves0;
        HitKeydown calves0; HitClick AutowireScript calves0]
  /\ Autowire.tryInit (Autowire.tryInit mounted) = second.2
  /\ console (click calves0 first.2) = [["No template mapped for"; "calves"]]
  /\ console (click calves0 second.2)
     = [["No template mapped for"; "calves"]; ["No template mapped for"; "calves"]]
  /\ AnatomyJs.bindDiagram (Some section0) (AnatomyJs.bindDiagram (Some section0) mounted).2
     = (false, (AnatomyJs.bindDiagram (Some section0) mounted).2).
Proof.
  cbv zeta.
  split; [vm_compute; reflexivity|]. split; [vm_compute; reflexivity|].
  split; [vm_compute; reflexivity|]. split; [vm_compute; reflexivity|].
  split; [vm_compute; reflexivity|]. split; [vm_compute; reflexivity|].
  split; [vm_compute; reflexivity|]. split; [vm_compute; reflexivity|].
  split; [vm_compute; reflexivity|]. apply bindDiagram_twice.
Qed.

(** C9. The two copies of the region table, one per script, hold the same
    region ids with the same template identifiers. *)
Theorem tables_agree :
  AnatomyJs.muscleToTemplate = Autowire.muscleToTemplate
  /\ (forall id : string,
        AnatomyJs.muscleToTemplate !! id = Autowire.muscleToTemplate !! id)
  /\ map_to_list AnatomyJs.muscleToTemplate ≡ₚ map_to_list Autowire.muscleToTemplate
  /\ size AnatomyJs.muscleToTemplate = 13%nat.
Proof.
  assert (E : AnatomyJs.muscleToTemplate = Autowire.muscleToTemplate) by reflexivity.
  split; [exact E|]. split; [intros id; by rewrite E|].
  split; [by rewrite E|]. vm_compute; reflexivity.
Qed.

End BindingClaims.

(** ** Route reflection *)
Section RouteClaims.

Lemma prefix_append (p s : string) : String.prefix p (p +:+ s) = true.
Proof.
  induction p as [|a p IH]; simpl; [by destruct s|].
  by destruct (ascii_dec a a).
Qed.

Lemma stripPrefix_append (p s : string) : stripPrefix p (p +:+ s) = Some s.
Proof. induction p as [|a p IH]; simpl; [done|]. by rewrite Ascii.eqb_refl. Qed.

Lemma isDiagramRoute_encodeSelection tpl pg content g :
  templates pg !! tpl = Some content -> app pg = Some g ->
  hash (AnatomyJs.showTemplate tpl pg) = AnatomyJs.encodeSelection tpl
  /\ AnatomyJs.isDiagramRoute (AnatomyJs.showTemplate tpl pg) = true.
Proof.
  intros Ht Ha. unfold AnatomyJs.showTemplate, AnatomyJs.isDiagramRoute.
  rewrite Ht, Ha; simpl. by split.
Qed.

Lemma muscleToTemplate_entries id tpl :
  AnatomyJs.muscleToTemplate !! id = Some tpl ->
  tpl = id +:+ "-template" /\ AnatomyJs.encodeSelection tpl = AnatomyJs.ROUTE_PREFIX +:+ "/" +:+ id.
Proof.
  intros H. apply elem_of_list_to_map_2 in H.
  repeat (apply elem_of_cons in H as [H|H]; [injection H as -> ->; by vm_compute|]).
  by apply elem_of_nil in H.
Qed.

(** C3. For every region id of the table, the route written for it is
    [#/workouts/diagram/<id>]: it is what [showTemplate] leaves in the hash
    whenever it renders, [isDiagramRoute] holds of it, and what follows the
    prefix and the slash is the id. *)
Theorem route_roundtrip (id tpl : string) :
  AnatomyJs.muscleToTemplate !! id = Some tpl ->
  AnatomyJs.encodeSelection tpl = AnatomyJs.ROUTE_PREFIX +:+ "/" +:+ id
  /\ startsWith (AnatomyJs.encodeSelection tpl) AnatomyJs.ROUTE_PREFIX = true
  /\ stripPrefix (AnatomyJs.ROUTE_PREFIX +:+ "/") (AnatomyJs.encodeSelection tpl) = Some id
  /\ forall pg content g,
       templates pg !! tpl = Some content -> app pg = Some g ->
       hash (AnatomyJs.showTemplate tpl pg) = AnatomyJs.ROUTE_PREFIX +:+ "/" +:+ id
       /\ AnatomyJs.isDiagramRoute (AnatomyJs.showTemplate tpl pg) = true.
Proof.
  intros H. destruct (muscleToTemplate_entries _ _ H) as [_ E].
  split; [exact E|]. split; [apply prefix_append|].
  split.
  - rewrite E.
    change (AnatomyJs.ROUTE_PREFIX +:+ "/" +:+ id)
      with ((AnatomyJs.ROUTE_PREFIX +:+ "/") +:+ id).
    apply stripPrefix_append.
  - intros pg content g Ht Ha. rewrite <- E.
    by apply (isDiagramRoute_encodeSelection tpl pg content g).
Qed.

Lemma route_roundtrip_witness :
  AnatomyJs.encodeSelection "chest-template" = "#/workouts/diagram/chest"
  /\ hash (AnatomyJs.showTemplate "chest-template" mounted) = "#/workouts/diagram/chest"
  /\ AnatomyJs.isDiagramRoute (AnatomyJs.showTemplate "chest-template" mounted) = true.
Proof.
  assert (H : AnatomyJs.muscleToTemplate !! "chest" = Some "chest-template")
    by (vm_compute; reflexivity).
  destruct (route_roundtrip "chest" "chest-template" H) as (E & _ & _ & S).
  split; [exact E|].
  apply (S mounted [Node "h1" None [] []] 0%nat); vm_compute; reflexivity.
Defined.

End RouteClaims.


(** ** The retry session *)
Section RetrySession.
Import Binder.
Variable host : nat -> page -> page.
Variables maxTries delayMs : nat.


Lemma findDiagram_ready pg s :
  surfaceReady pg s -> AnatomyJs.findDiagram pg = (Some s, true).
Proof.
  intros (Hs & _ & [[[f b] t] Hr]). unfold AnatomyJs.findDiagram. rewrite Hs.
  apply resolve_Some in Hr as (Hf & _). by rewrite Hf.
Qed.

Lemma attempt_ready pg s :
  surfaceReady pg s ->
  AnatomyJs.attempt pg = (true, true, (AnatomyJs.bindDiagram (Some s) pg).2)
  /\ (AnatomyJs.bindDiagram (Some s) pg).1 = true.
Proof.
  intros H. unfold AnatomyJs.attempt. rewrite (findDiagram_ready _ _ H).
  destruct H as (_ & Hb & [[[f b] t] Hr]).
  by rewrite (bindDiagram_ready _ _ _ _ _ Hb Hr).
Qed.


Lemma tick_ready fuel tries calls pg s :
  surfaceReady pg s ->
  AnatomyJs.tick (S fuel) host maxTries delayMs tries calls pg
  = Some (AnatomyJs.Session (S tries) (S calls) (tries * delayMs) AnatomyJs.Bound,
          (AnatomyJs.bindDiagram (Some s) pg).2).
Proof. intros H. simpl. by rewrite (proj1 (attempt_ready _ _ H)). Qed.




(** A session always comes to an end: the fuel is never what stops it. *)
Lemma tick_total pg : forall fuel tries calls,
  (maxTries - tries < fuel)%nat ->
  is_Some (AnatomyJs.tick fuel host maxTries delayMs tries calls pg).
Proof.
  intros fuel. revert pg.
  induction fuel as [|fuel IH]; intros pg tries calls Hf; [lia|].
  simpl. destruct (AnatomyJs.attempt pg) as [[ok called] pg'].
  destruct ok; [done|].
  destruct (Nat.leb_spec maxTries (S tries)); [done|].
  apply IH. lia.
Qed.

Lemma tryBindWithRetries_total pg :
  is_Some (AnatomyJs.tryBindWithRetries host maxTries delayMs pg).
Proof.
  unfold AnatomyJs.tryBindWithRetries.
  destruct (AnatomyJs.isDiagramRoute pg); [|done].
  apply tick_total. lia.
Qed.

End RetrySession.

Lemma pageAt_idle pg k : pageAt idle pg k = pg.
Proof. induction k as [|k IH]; [done|]. simpl. by rewrite IH. Qed.



(** ** What binding leaves on the page *)
Section Wiring.
Import Binder.

Lemma props_of_update r f pg r' :
  props_of (update r f pg) r'
  = if decide (r = r') then f (props_of pg r') else props_of pg r'.
Proof.
  case_decide as H; [subst; apply props_of_update_eq|by apply props_of_update_ne].
Qed.

Lemma props_of_makeActivatable owner pg el r :
  props_of (makeActivatable owner pg el) r
  = if decide (el = r)
    then Props (display (props_of pg r)) (textContent (props_of pg r))
               (Some "button") (Some 0%Z) (dataset_bound (props_of pg r))
               ((listeners (props_of pg r) ++ [HitKeydown r]) ++ [HitClick owner r])
    else props_of pg r.
Proof.
  unfold makeActivatable, addEventListener.
  rewrite !props_of_update. by case_decide; subst.
Qed.

Lemma frame_forEach owner els : forall pg,
  let pg' := foldl (makeActivatable owner) pg els in
  hash pg' = hash pg /\ app pg' = app pg /\ frags pg' = frags pg
  /\ templates pg' = templates pg /\ console pg' = console pg.
Proof.
  induction els as [|el els IH]; intros pg; [done|].
  simpl. destruct (IH (makeActivatable owner pg el)) as (?&?&?&?&?).
  by repeat split.
Qed.

Lemma props_of_forEach owner r els : forall pg,
  let p := props_of pg r in
  let p' := props_of (foldl (makeActivatable owner) pg els) r in
  display p' = display p /\ textContent p' = textContent p
  /\ dataset_bound p' = dataset_bound p
  /\ listeners p' = listeners p ++ installed owner r els
  /\ (r ∈ els -> role p' = Some "button" /\ tabIndex p' = Some 0%Z)
  /\ (r ∉ els -> role p' = role p /\ tabIndex p' = tabIndex p).
Proof.
  induction els as [|el els IH]; intros pg; simpl.
  - rewrite app_nil_r. do 4 (split; [done|]). split; [|done].
    intros H. by apply elem_of_nil in H.
  - destruct (IH (makeActivatable owner pg el)) as (Hd & Ht & Hb & Hl & Hin & Hout).
    rewrite Hd, Ht, Hb, Hl. rewrite props_of_makeActivatable.
    unfold installed; simpl. fold (installed owner r els).
    case_decide as E; simpl.
    + subst el. do 3 (split; [done|]). split; [by rewrite <- !app_assoc|]. split.
      * intros _. destruct (decide (r ∈ els)) as [Hi|Hn]; [by apply Hin|].
        destruct (Hout Hn) as [-> ->].
        rewrite props_of_makeActivatable. by rewrite decide_True.
      * intros Hn. exfalso. apply Hn. by left.
    + do 4 (split; [done|]). split.
      * intros Hi. apply elem_of_cons in Hi as [->|Hi]; [done|]. by apply Hin.
      * intros Hn. apply not_elem_of_cons in Hn as [_ Hn].
        destruct (Hout Hn) as [-> ->].
        rewrite props_of_makeActivatable. by rewrite decide_False.
Qed.

Lemma installed_elem owner r els :
  r ∈ els -> HitKeydown r ∈ installed owner r els /\ HitClick owner r ∈ installed owner r els.
Proof.
  induction els as [|el els IH]; intros H; [by apply elem_of_nil in H|].
  unfold installed; simpl. case_decide as E.
  - split; simpl; [by left|right; by left].
  - apply elem_of_cons in H as [->|H]; [done|]. simpl. by apply IH.
Qed.

Lemma installed_shape owner r els :
  Forall (fun l => l = HitKeydown r \/ l = HitClick owner r) (installed owner r els).
Proof.
  induction els as [|el els IH]; unfold installed; simpl; [done|].
  case_decide; [|done]. simpl. by repeat constructor.
Qed.


Lemma bind_true owner root pg pg' :
  bind owner root pg = (true, pg') ->
  exists f b t, resolve pg root = Some (f, b, t)
    /\ pg' = marked owner root (wire owner f b t pg).
Proof.
  destruct owner; unfold bind.
  - intros H. apply bindDiagram_true in H as (r & f & b & t & [= <-] & Hr & ->).
    by exists f, b, t.
  - unfold Autowire.initBodyDiagram.
    destruct (resolve pg root) as [[[f b] t]|]; [|done].
    intros [= <-]. by exists f, b, t.
Qed.

Lemma props_of_marked owner root pg r :
  let p := props_of pg r in
  let p' := props_of (marked owner root pg) r in
  display p' = display p /\ textContent p' = textContent p /\ role p' = role p
  /\ tabIndex p' = tabIndex p /\ listeners p' = listeners p.
Proof.
  destruct owner; simpl; [|done].
  rewrite props_of_update. by case_decide.
Qed.

Lemma frame_marked owner root pg :
  let pg' := marked owner root pg in
  hash pg' = hash pg /\ app pg' = app pg /\ frags pg' = frags pg
  /\ templates pg' = templates pg /\ console pg' = console pg.
Proof. by destruct owner. Qed.

(** The page at line 59. *)
Lemma props_of_prepared f b t pg r :
  f <> b ->
  let p := props_of pg r in
  let p' := props_of (prepared f b t pg) r in
  display p' = (if decide (r = f) then Some "block"
                else if decide (r = b) then Some "none" else display p)
  /\ textContent p' = (if decide (r = t) then Some "Show Back View" else textContent p)
  /\ role p' = role p /\ tabIndex p' = tabIndex p
  /\ dataset_bound p' = dataset_bound p
  /\ listeners p' = (if decide (r = t)
                     then listeners p ++ [ToggleClick true f b t] else listeners p).
Proof.
  intros Hfb. unfold prepared, defaultState, addEventListener.
  rewrite !props_of_update.
  repeat case_decide; subst; simpl; try done.
Qed.

(** Everything a successful bind leaves on an element. *)
Lemma props_after_bind owner root pg pg' f b t r :
  resolve pg root = Some (f, b, t) ->
  bind owner root pg = (true, pg') ->
  let els := clickable (prepared f b t pg) f b in
  let p := props_of pg r in
  let p' := props_of pg' r in
  display p' = (if decide (r = f) then Some "block"
                else if decide (r = b) then Some "none" else display p)
  /\ textContent p' = (if decide (r = t) then Some "Show Back View" else textContent p)
  /\ listeners p'
     = (if decide (r = t) then listeners p ++ [ToggleClick true f b t] else listeners p)
       ++ installed owner r els
  /\ (r ∈ els -> role p' = Some "button" /\ tabIndex p' = Some 0%Z)
  /\ (r ∉ els -> role p' = role p /\ tabIndex p' = tabIndex p).
Proof.
  intros Hr Hb. apply bind_true in Hb as (f' & b' & t' & Hr' & ->).
  rewrite Hr in Hr'. injection Hr' as <- <- <-.
  destruct (resolve_distinct _ _ _ _ _ Hr) as [Hfb _].
  cbv zeta.
  destruct (props_of_marked owner root (wire owner f b t pg) r) as (-> & -> & -> & -> & ->).
  unfold wire.
  destruct (props_of_forEach owner r (clickable (prepared f b t pg) f b) (prepared f b t pg))
    as (-> & -> & _ & -> & Hin & Hout).
  destruct (props_of_prepared f b t pg r Hfb) as (-> & -> & Ero & Eti & _ & ->).
  do 3 (split; [done|]). split; [exact Hin|].
  intros Hn. destruct (Hout Hn) as [-> ->]. by rewrite Ero, Eti.
Qed.

Lemma frame_bind owner root pg pg' :
  bind owner root pg = (true, pg') ->
  hash pg' = hash pg /\ app pg' = app pg /\ frags pg' = frags pg
  /\ templates pg' = templates pg /\ console pg' = console pg.
Proof.
  intros Hb. apply bind_true in Hb as (f & b & t & _ & ->).
  destruct (frame_marked owner root (wire owner f b t pg)) as (-> & -> & -> & -> & ->).
  unfold wire.
  by destruct (frame_forEach owner (clickable (prepared f b t pg) f b) (prepared f b t pg))
    as (-> & -> & -> & -> & ->).
Qed.

End Wiring.

(** ** What the closures do *)
Section Closures.
Import Binder Events.

Lemma foldl_inv {A B} (P : A -> Prop) (f : A -> B -> A) (l : list B) : forall a,
  P a -> (forall a b, b ∈ l -> P a -> P (f a b)) -> P (foldl f a l).
Proof.
  induction l as [|b l IH]; intros a Ha Hstep; [done|]. simpl.
  apply IH.
  - apply Hstep; [by left|done].
  - intros a' b' Hb'. apply Hstep. by right.
Qed.

Lemma showTemplate_same owner tpl pg :
  Events.showTemplate owner tpl pg
  = match templates pg !! tpl, app pg with
    | Some content, Some _ =>
        Page (AnatomyJs.encodeSelection tpl) (Some (length (frags pg)))
             (frags pg ++ [content]) (store pg) (templates pg) (console pg)
    | _, _ => pg
    end.
Proof. by destruct owner. Qed.

(** The click closure of a hit element never writes on an element. *)
Lemma hitClickHandler_frame owner el pg :
  let pg' := hitClickHandler owner el pg in
  store pg' = store pg /\ templates pg' = templates pg
  /\ exists extra, frags pg' = frags pg ++ extra.
Proof.
  unfold hitClickHandler.
  assert (W : forall a, store (warn a pg) = store pg /\ templates (warn a pg) = templates pg
                        /\ exists extra, frags (warn a pg) = frags pg ++ extra).
  { intros a. do 2 (split; [done|]). exists []. by rewrite app_nil_r. }
  destruct (table owner !! id_of pg el) as [tpl|]; [|apply W].
  case_bool_decide; [apply W|].
  rewrite showTemplate_same.
  destruct (templates pg !! tpl), (app pg); simpl;
    try (do 2 (split; [done|]); exists []; by rewrite app_nil_r).
  do 2 (split; [done|]). by eexists.
Qed.

Lemma props_of_store pg pg' r : store pg' = store pg -> props_of pg' r = props_of pg r.
Proof. unfold props_of. by intros ->. Qed.

Lemma id_of_frags pg pg' extra r :
  frags pg' = frags pg ++ extra -> id_of pg r <> "" -> id_of pg' r = id_of pg r.
Proof.
  unfold id_of, node_of. intros -> H.
  destruct (frags pg !! r.1) as [fr|] eqn:E; [|done].
  by rewrite (lookup_app_l_Some _ _ _ _ E).
Qed.

Lemma toggleHandler_frame host i c f b t pg :
  let pg' := toggleHandler host i c f b t pg in
  hash pg' = hash pg /\ app pg' = app pg /\ frags pg' = frags pg
  /\ templates pg' = templates pg /\ console pg' = console pg.
Proof. done. Qed.

Lemma props_of_toggleHandler host i c f b t pg r :
  let p := props_of pg r in
  let p' := props_of (toggleHandler host i c f b t pg) r in
  display p' = (if decide (r = b) then Some (hidden (negb c))
                else if decide (r = f) then Some (shown (negb c)) else display p)
  /\ textContent p' = (if decide (r = t) then Some (labelFor (negb c)) else textContent p)
  /\ role p' = role p /\ tabIndex p' = tabIndex p
  /\ dataset_bound p' = dataset_bound p
  /\ listeners p' = (if decide (r = host)
                     then <[i := ToggleClick (negb c) f b t]> (listeners p)
                     else listeners p).
Proof.
  unfold toggleHandler. rewrite !props_of_update.
  repeat case_decide; subst; simpl; try done.
Qed.

Lemma untabled_toggle owner : table owner !! "toggleViewBtn" = None.
Proof. destruct owner; vm_compute; reflexivity. Qed.

(** A click runs the listeners one by one; none of them adds or removes a
    listener anywhere. *)
Lemma run_click_codes el pg i r :
  code_of <$> listeners (props_of (run_click el pg i) r)
  = code_of <$> listeners (props_of pg r).
Proof.
  unfold run_click.
  destruct (listeners (props_of pg el) !! i) as [[c f b t|e|o e]|] eqn:E; try done.
  - destruct (props_of_toggleHandler el i c f b t pg r) as (_ & _ & _ & _ & _ & ->).
    case_decide as Hr; [|done]. subst r.
    rewrite list_fmap_insert. simpl.
    apply list_insert_id. by rewrite list_lookup_fmap, E.
  - destruct (hitClickHandler_frame o e pg) as (Hs & _).
    by rewrite (props_of_store _ _ _ Hs).
Qed.

Lemma click_codes el pg r :
  code_of <$> listeners (props_of (click el pg) r)
  = code_of <$> listeners (props_of pg r).
Proof.
  unfold click.
  apply (foldl_inv (fun q => code_of <$> listeners (props_of q r)
                             = code_of <$> listeners (props_of pg r))); [done|].
  intros q i _ Hq. by rewrite run_click_codes.
Qed.

End Closures.

(** ** The toggle *)
Section Toggle.
Import Binder Events.
Variables t f b : ref.
Variable n : nat.
Variable after : list listener.
Hypothesis Hfb : f <> b.
Hypothesis Hafter : hitListenersOf t after.

Lemma id_of_same_frags pg pg' r : frags pg' = frags pg -> id_of pg' r = id_of pg r.
Proof. unfold id_of, node_of. by intros ->. Qed.

(** Listeners added before the bind run first; whatever they do, the
    closure of this bind is still in its place when its turn comes. *)
Lemma run_click_before pg c i :
  (i < n)%nat ->
  toggleAt pg t n c f b after /\ id_of pg t = "toggleViewBtn" ->
  toggleAt (run_click t pg i) t n c f b after
  /\ id_of (run_click t pg i) t = "toggleViewBtn".
Proof.
  intros Hi [(L & HL & Hn) Hid]. unfold run_click. rewrite HL.
  rewrite lookup_app_l by lia.
  destruct (L !! i) as [[c' f' b' t'|e|o e]|] eqn:E.
  - split.
    + exists (<[i := ToggleClick (negb c') f' b' t']> L).
      destruct (props_of_toggleHandler t i c' f' b' t' pg t) as (_ & _ & _ & _ & _ & ->).
      rewrite decide_True by done. rewrite HL.
      rewrite insert_app_l by lia. by rewrite length_insert.
    + by rewrite (id_of_same_frags pg).
  - split; [by exists L|done].
  - destruct (hitClickHandler_frame o e pg) as (Hs & _ & extra & Hf). split.
    + exists L. by rewrite (props_of_store _ _ _ Hs).
    + rewrite (id_of_frags pg _ extra); [done|done|by rewrite Hid].
  - split; [by exists L|done].
Qed.

Lemma run_click_toggle pg c L :
  listeners (props_of pg t) = L ++ ToggleClick c f b t :: after ->
  let q := run_click t pg (length L) in
  listeners (props_of q t) = L ++ ToggleClick (negb c) f b t :: after
  /\ display (props_of q f) = Some (shown (negb c))
  /\ display (props_of q b) = Some (hidden (negb c))
  /\ textContent (props_of q t) = Some (labelFor (negb c))
  /\ frags q = frags pg.
Proof.
  intros HL. cbv zeta. unfold run_click. rewrite HL.
  rewrite list_lookup_middle by done.
  destruct (props_of_toggleHandler t (length L) c f b t pg t) as (_ & -> & _ & _ & _ & ->).
  destruct (props_of_toggleHandler t (length L) c f b t pg f) as (-> & _).
  destruct (props_of_toggleHandler t (length L) c f b t pg b) as (-> & _).
  rewrite (decide_False (P := f = b)) by done.
  repeat (rewrite decide_True by done).
  rewrite HL. split; [|done].
  rewrite insert_app_r_alt by lia. by rewrite Nat.sub_diag.
Qed.

(** Listeners added after it are those of [forEach], when the control lies
    inside a view: its id has no template, they write on no element. *)
Lemma run_click_after pg c L i :
  listeners (props_of pg t) = L ++ ToggleClick c f b t :: after ->
  id_of pg t = "toggleViewBtn" ->
  (length L < i)%nat ->
  store (run_click t pg i) = store pg /\ frags (run_click t pg i) = frags pg.
Proof.
  intros HL Hid Hi. unfold run_click. rewrite HL.
  rewrite lookup_app_r by lia.
  destruct (i - length L)%nat as [|j] eqn:Ej; [lia|]. simpl.
  destruct (after !! j) as [l|] eqn:E; [|done].
  unfold hitListenersOf in Hafter. rewrite Forall_lookup in Hafter.
  destruct (Hafter j l E) as [->|[o ->]]; [done|].
  unfold hitClickHandler. by rewrite Hid, untabled_toggle.
Qed.

(** One activation of the toggle control. *)
Lemma click_toggle pg c :
  toggleAt pg t n c f b after -> id_of pg t = "toggleViewBtn" ->
  let q := click t pg in
  toggleAt q t n (negb c) f b after /\ id_of q t = "toggleViewBtn"
  /\ display (props_of q f) = Some (shown (negb c))
  /\ display (props_of q b) = Some (hidden (negb c))
  /\ textContent (props_of q t) = Some (labelFor (negb c)).
Proof.
  intros Ht Hid. cbv zeta. unfold click.
  destruct Ht as (L0 & HL0 & Hn0).
  rewrite HL0, length_app, Hn0. simpl length.
  rewrite seq_app, foldl_app. simpl seq. simpl foldl.
  set (pg1 := foldl (run_click t) pg (seq 0 n)).
  assert (H1 : toggleAt pg1 t n c f b after /\ id_of pg1 t = "toggleViewBtn").
  { apply (foldl_inv (fun q => toggleAt q t n c f b after /\ id_of q t = "toggleViewBtn")).
    - split; [by exists L0|done].
    - intros q i Hi Hq. apply run_click_before; [|done].
      apply elem_of_seq in Hi. lia. }
  destruct H1 as [(L & HL & Hn) Hid1].
  pose proof (run_click_toggle pg1 c L HL) as H2. cbv zeta in H2.
  rewrite Hn in H2. set (pg2 := run_click t pg1 n) in *.
  destruct H2 as (HL2 & Hdf & Hdb & Htx & Hfr).
  assert (Hid2 : id_of pg2 t = "toggleViewBtn") by by rewrite (id_of_same_frags pg1).
  assert (H3 : store (foldl (run_click t) pg2 (seq (0 + S n) (length after))) = store pg2
               /\ frags (foldl (run_click t) pg2 (seq (0 + S n) (length after))) = frags pg2).
  { apply (foldl_inv (fun q => store q = store pg2 /\ frags q = frags pg2)); [done|].
    intros q i Hi [Hs Hf]. apply elem_of_seq in Hi.
    destruct (run_click_after q (negb c) L i) as [-> ->]; try done.
    - by rewrite (props_of_store _ _ _ Hs).
    - by rewrite (id_of_same_frags pg2).
    - lia. }
  replace (n + 0)%nat with n by lia. replace (0 + n)%nat with n by lia.
  fold pg2.
  destruct H3 as [Hs Hf].
  rewrite !(props_of_store _ _ _ Hs), (id_of_same_frags pg2) by done.
  split; [|done]. exists L. by rewrite (props_of_store _ _ _ Hs).
Qed.

(** [N] activations in a row. *)
Lemma clicks_toggle pg N :
  toggleAt pg t n true f b after -> id_of pg t = "toggleViewBtn" ->
  display (props_of pg f) = Some (shown true) ->
  display (props_of pg b) = Some (hidden true) ->
  textContent (props_of pg t) = Some (labelFor true) ->
  let q := Nat.iter N (click t) pg in
  toggleAt q t n (Nat.even N) f b after /\ id_of q t = "toggleViewBtn"
  /\ display (props_of q f) = Some (shown (Nat.even N))
  /\ display (props_of q b) = Some (hidden (Nat.even N))
  /\ textContent (props_of q t) = Some (labelFor (Nat.even N)).
Proof.
  intros Ht Hid Hf Hb Hx. cbv zeta.
  induction N as [|N IH]; [done|].
  rewrite Nat.even_succ, <- Nat.negb_even.
  destruct IH as (Ht' & Hid' & _).
  change (Nat.iter (S N) (click t) pg) with (click t (Nat.iter N (click t) pg)).
  by apply click_toggle.
Qed.

End Toggle.

(** ** Claims on activation *)
Section ActivationClaims.
Import Binder Events.

Lemma bound_toggle owner root pg pg' f b t :
  resolve pg root = Some (f, b, t) ->
  bind owner root pg = (true, pg') ->
  let after := installed owner t (clickable (prepared f b t pg) f b) in
  f <> b /\ hitListenersOf t after
  /\ toggleAt pg' t (length (listeners (props_of pg t))) true f b after
  /\ id_of pg' t = "toggleViewBtn"
  /\ display (props_of pg' f) = Some (shown true)
  /\ display (props_of pg' b) = Some (hidden true)
  /\ textContent (props_of pg' t) = Some (labelFor true).
Proof.
  intros Hr Hb. cbv zeta.
  destruct (resolve_distinct _ _ _ _ _ Hr) as [Hfb Hid].
  split; [done|]. split.
  { eapply Forall_impl; [apply installed_shape|].
    intros l [-> | ->]; [by left|right; by eexists]. }
  pose proof (props_after_bind owner root pg pg' f b t t Hr Hb) as (_ & Ht & Hl & _).
  pose proof (props_after_bind owner root pg pg' f b t f Hr Hb) as (Hf & _).
  pose proof (props_after_bind owner root pg pg' f b t b Hr Hb) as (Hbk & _).
  cbv zeta in Ht, Hl, Hf, Hbk.
  rewrite decide_True in Ht by done. rewrite decide_True in Hl by done.
  rewrite decide_True in Hf by done.
  rewrite decide_False, decide_True in Hbk by done.
  destruct (frame_bind owner root pg pg' Hb) as (_ & _ & Hfr & _).
  split; [|by rewrite (id_of_same_frags pg)].
  exists (listeners (props_of pg t)). by rewrite Hl, <- app_assoc.
Qed.

(** C4. After a successful bind by either script the front view is shown,
    the back view hidden and the label names the back view; [N] activations
    of the toggle control later, the displays and the label are those of
    the start when [N] is even and the flipped ones when [N] is odd.  Each
    activation is one step of the page, and after each exactly one of the
    two views has display [block] while the other has [none]. *)
Theorem toggle_parity (owner : script) (root : ref) (pg pg' : page) (f b t : ref) :
  resolve pg root = Some (f, b, t) ->
  bind owner root pg = (true, pg') ->
  forall N : nat,
    let q := Nat.iter N (click t) pg' in
    display (props_of q f) = Some (shown (Nat.even N))
    /\ display (props_of q b) = Some (hidden (Nat.even N))
    /\ textContent (props_of q t) = Some (labelFor (Nat.even N))
    /\ (display (props_of q f) = Some "block" /\ display (props_of q b) = Some "none"
        /\ textContent (props_of q t) = Some "Show Back View"
        \/ display (props_of q f) = Some "none" /\ display (props_of q b) = Some "block"
           /\ textContent (props_of q t) = Some "Show Front View").
Proof.
  intros Hr Hb N.
  destruct (bound_toggle owner root pg pg' f b t Hr Hb)
    as (Hfb & Hafter & Hat & Hid & Hdf & Hdb & Htx).
  destruct (clicks_toggle t f b _ _ Hfb Hafter pg' N Hat Hid Hdf Hdb Htx)
    as (_ & _ & Ef & Eb & Ex).
  cbv zeta. rewrite Ef, Eb, Ex. do 3 (split; [done|]).
  destruct (Nat.even N); [by left|by right].
Qed.

Lemma toggle_parity_witness :
  let q := Nat.iter 3 (click toggle0) (bind AnatomyScript section0 mounted).2 in
  display (props_of q front0) = Some "none"
  /\ display (props_of q back0) = Some "block"
  /\ textContent (props_of q toggle0) = Some "Show Front View".
Proof.
  assert (Hr : resolve mounted section0 = Some (front0, back0, toggle0))
    by (vm_compute; reflexivity).
  assert (Hb : bind AnatomyScript section0 mounted
               = (true, (bind AnatomyScript section0 mounted).2))
    by (vm_compute; reflexivity).
  destruct (toggle_parity AnatomyScript section0 mounted _ front0 back0 toggle0 Hr Hb 3)
    as (Hf & Hk & Hx & _).
  cbv zeta. by split; [exact Hf|split; [exact Hk|exact Hx]].
Defined.


End ActivationClaims.

(** ** Which elements the bind reaches *)
Section Reach.
Import Binder.

Lemma node_at_snoc p : forall fr n i,
  node_at fr p = Some n -> node_at fr (p ++ [i]) = childNodes n !! i.
Proof.
  induction p as [|j p IH]; intros fr n i H; [done|].
  simpl in *. destruct (fr !! j) as [m|]; [|done].
  destruct p as [|j' p].
  - injection H as ->. simpl. by destruct (childNodes n !! i).
  - simpl app. by apply IH.
Qed.

(** Replacing by text the children of elements that have no child element
    hides nothing from a query. *)
Lemma below_agree fr (gone gone' : path -> bool) :
  (forall q, gone' q = gone q
             \/ exists nt, node_at fr q = Some nt /\ childNodes nt = []) ->
  forall n p, node_at fr p = Some n -> below gone' p n = below gone p n.
Proof.
  intros Hg. induction n as [tg i c ks IH] using node_induction. intros p Hp.
  assert (Hkids : forall l pre, ks = pre ++ l ->
    (fix kids (i : nat) (ks : list node) {struct ks} : list path :=
       match ks with
       | [] => []
       | k :: ks' => (p ++ [i]) :: below gone' (p ++ [i]) k ++ kids (S i) ks'
       end) (length pre) l
    = (fix kids (i : nat) (ks : list node) {struct ks} : list path :=
       match ks with
       | [] => []
       | k :: ks' => (p ++ [i]) :: below gone (p ++ [i]) k ++ kids (S i) ks'
       end) (length pre) l).
  { induction l as [|k l IHl]; intros pre E; [done|].
    assert (Hk : ks !! length pre = Some k) by (subst ks; by apply list_lookup_middle).
    rewrite Forall_lookup in IH.
    rewrite (IH _ _ Hk (p ++ [length pre])).
    2:{ rewrite (node_at_snoc p fr _ (length pre) Hp). simpl. exact Hk. }
    f_equal. f_equal.
    specialize (IHl (pre ++ [k])). rewrite length_app in IHl. simpl in IHl.
    rewrite Nat.add_1_r in IHl. apply IHl. by rewrite <- app_assoc. }
  simpl. destruct (Hg p) as [->|(nt & Hnt & Hleaf)].
  - destruct (gone p); [done|]. by apply (Hkids ks []).
  - rewrite Hp in Hnt. injection Hnt as <-. simpl in Hleaf. subst ks.
    by destruct (gone' p), (gone p).
Qed.

Lemma descendants_agree pg pg' r :
  frags pg' = frags pg ->
  (forall q, textContent (props_of pg' q) = textContent (props_of pg q)
             \/ exists nt, node_of pg q = Some nt /\ childNodes nt = []) ->
  descendants pg' r = descendants pg r.
Proof.
  intros Hfr Hx. unfold descendants, node_of. rewrite Hfr.
  destruct (frags pg !! r.1) as [fr|] eqn:Hf; [|done].
  destruct (node_at fr r.2) as [n|] eqn:Hn; [|done]. f_equal.
  apply (below_agree fr); [|done].
  intros q. destruct (Hx (r.1, q)) as [E|(nt & Hnt & Hleaf)].
  - left. unfold text_only. by rewrite E.
  - right. exists nt. unfold node_of in Hnt. simpl in Hnt. by rewrite Hf in Hnt.
Qed.

Lemma matches_agree pg pg' sel r :
  frags pg' = frags pg -> matches pg' sel r = matches pg sel r.
Proof. unfold matches, node_of. by intros ->. Qed.

Lemma querySelectorAll_agree pg pg' r sel :
  frags pg' = frags pg ->
  (forall q, textContent (props_of pg' q) = textContent (props_of pg q)
             \/ exists nt, node_of pg q = Some nt /\ childNodes nt = []) ->
  querySelectorAll pg' r sel = querySelectorAll pg r sel.
Proof.
  intros Hfr Hx. unfold querySelectorAll.
  rewrite (descendants_agree pg pg' r Hfr Hx).
  apply list_filter_iff. intros x. by rewrite (matches_agree pg pg' sel x Hfr).
Qed.

Lemma resolve_agree pg pg' root :
  frags pg' = frags pg ->
  (forall q, textContent (props_of pg' q) = textContent (props_of pg q)
             \/ exists nt, node_of pg q = Some nt /\ childNodes nt = []) ->
  resolve pg' root = resolve pg root.
Proof.
  intros Hfr Hx. unfold resolve, querySelector.
  by rewrite !(querySelectorAll_agree pg pg' root _ Hfr Hx).
Qed.

(** When the toggle control has no child element, the elements with an id
    below a container at line 59 are those below it when the bind starts. *)
Lemma querySelectorAll_prepared pg f b t nt r sel :
  f <> b ->
  node_of pg t = Some nt -> childNodes nt = [] ->
  querySelectorAll (prepared f b t pg) r sel = querySelectorAll pg r sel.
Proof.
  intros Hfb Hnt Hleaf. apply querySelectorAll_agree; [done|].
  intros q. destruct (decide (q = t)) as [->|E]; [right; by exists nt|left].
  pose proof (props_of_prepared f b t pg q Hfb) as (_ & Hx & _).
  cbv zeta in Hx. by rewrite Hx, decide_False.
Qed.

(** The autowire binder, run again on a surface it has bound, binds it
    again: the same three elements resolve, [true] is returned, and the
    toggle control carries one more toggle closure after each run. *)
Lemma initBodyDiagram_rebinds root pg pg1 f b t nt :
  resolve pg root = Some (f, b, t) ->
  node_of pg t = Some nt -> childNodes nt = [] ->
  Autowire.initBodyDiagram root pg = (true, pg1) ->
  Autowire.initBodyDiagram root pg1 = (true, wire AutowireScript f b t pg1)
  /\ exists l1 l2 l3,
       listeners (props_of (wire AutowireScript f b t pg1) t)
       = l1 ++ ToggleClick true f b t :: l2 ++ ToggleClick true f b t :: l3.
Proof.
  intros Hr Hnt Hleaf H1.
  assert (Hb : bind AutowireScript root pg = (true, pg1)) by exact H1.
  destruct (frame_bind _ _ _ _ Hb) as (_ & _ & Hfr & _).
  assert (Hr1 : resolve pg1 root = Some (f, b, t)).
  { rewrite <- Hr. apply resolve_agree; [done|].
    intros q. destruct (decide (q = t)) as [->|E]; [right; by exists nt|left].
    pose proof (props_after_bind _ _ _ _ _ _ _ q Hr Hb) as (_ & Hx & _).
    cbv zeta in Hx. by rewrite Hx, decide_False. }
  split; [unfold Autowire.initBodyDiagram; by rewrite Hr1|].
  assert (Hb2 : bind AutowireScript root pg1 = (true, wire AutowireScript f b t pg1)).
  { unfold bind, Autowire.initBodyDiagram. by rewrite Hr1. }
  pose proof (props_after_bind _ _ _ _ _ _ _ t Hr Hb) as (_ & _ & Hl1 & _).
  pose proof (props_after_bind _ _ _ _ _ _ _ t Hr1 Hb2) as (_ & _ & Hl2 & _).
  cbv zeta in Hl1, Hl2. rewrite decide_True in Hl1 by done.
  rewrite decide_True in Hl2 by done. rewrite Hl2, Hl1.
  exists (listeners (props_of pg t)),
         (installed AutowireScript t (clickable (prepared f b t pg) f b)),
         (installed AutowireScript t (clickable (prepared f b t pg1) f b)).
  by rewrite <- !app_assoc.
Qed.

End Reach.

(** ** Claims on the hit elements *)
Section HitElementClaims.
Import Binder Events.

Lemma bound_hit owner root pg pg' f b t el :
  resolve pg root = Some (f, b, t) ->
  bind owner root pg = (true, pg') ->
  el ∈ clickable (prepared f b t pg) f b ->
  role (props_of pg' el) = Some "button" /\ tabIndex (props_of pg' el) = Some 0%Z
  /\ HitKeydown el ∈ listeners (props_of pg' el)
  /\ HitClick owner el ∈ listeners (props_of pg' el).
Proof.
  intros Hr Hb Hel.
  pose proof (props_after_bind owner root pg pg' f b t el Hr Hb) as (_ & _ & Hl & Hin & _).
  cbv zeta in Hl, Hin. destruct (Hin Hel) as [-> ->]. do 2 (split; [done|]).
  rewrite Hl. destruct (installed_elem owner el _ Hel) as [Hk Hc].
  split; apply elem_of_app; by right.
Qed.



(** C10. A successful bind puts the keydown and the click closure on every
    element with an [id] attribute that [querySelectorAll] finds below the
    front container and below the back container, shown or hidden, when the
    closures are attached; with a toggle control that has no child element
    these are the elements found there when the bind starts.  The toggle
    closure then writes the display of the two containers and the text of
    the control and nothing else on the page; no activation of the control
    adds or removes a listener anywhere. *)
Theorem bind_installs_toggle_keeps
    (owner : script) (root : ref) (pg pg' : page) (f b t : ref) :
  resolve pg root = Some (f, b, t) ->
  bind owner root pg = (true, pg') ->
  (forall el,
     el ∈ querySelectorAll (prepared f b t pg) f HasId
     \/ el ∈ querySelectorAll (prepared f b t pg) b HasId ->
     HitKeydown el ∈ listeners (props_of pg' el)
     /\ HitClick owner el ∈ listeners (props_of pg' el))
  /\ (forall nt el,
        node_of pg t = Some nt -> childNodes nt = [] ->
        el ∈ querySelectorAll pg f HasId \/ el ∈ querySelectorAll pg b HasId ->
        HitKeydown el ∈ listeners (props_of pg' el)
        /\ HitClick owner el ∈ listeners (props_of pg' el))
  /\ (forall q i c,
        listeners (props_of q t) !! i = Some (ToggleClick c f b t) ->
        let q' := toggleHandler t i c f b t q in
        hash q' = hash q /\ app q' = app q /\ frags q' = frags q
        /\ templates q' = templates q /\ console q' = console q
        /\ forall r,
             (r <> f -> r <> b -> display (props_of q' r) = display (props_of q r))
             /\ (r <> t -> textContent (props_of q' r) = textContent (props_of q r))
             /\ role (props_of q' r) = role (props_of q r)
             /\ tabIndex (props_of q' r) = tabIndex (props_of q r)
             /\ dataset_bound (props_of q' r) = dataset_bound (props_of q r)
             /\ code_of <$> listeners (props_of q' r) = code_of <$> listeners (props_of q r))
  /\ (forall q r,
        code_of <$> listeners (props_of (click t q) r) = code_of <$> listeners (props_of q r))
  /\ (forall q c, listeners (props_of q t) = [ToggleClick c f b t] ->
        click t q = toggleHandler t 0 c f b t q).
Proof.
  intros Hr Hb.
  assert (Hall : forall el,
            el ∈ querySelectorAll (prepared f b t pg) f HasId
            \/ el ∈ querySelectorAll (prepared f b t pg) b HasId ->
            HitKeydown el ∈ listeners (props_of pg' el)
            /\ HitClick owner el ∈ listeners (props_of pg' el)).
  { intros el Hel.
    assert (Hin : el ∈ clickable (prepared f b t pg) f b).
    { unfold clickable. apply elem_of_app. tauto. }
    by destruct (bound_hit owner root pg pg' f b t el Hr Hb Hin) as (_ & _ & ? & ?). }
  split; [exact Hall|]. split; [|split; [|split]].
  - intros nt el Hnt Hleaf Hel. apply Hall.
    destruct (resolve_distinct _ _ _ _ _ Hr) as [Hfb _].
    by rewrite !(querySelectorAll_prepared pg f b t nt _ _ Hfb Hnt Hleaf).
  - intros q i c Hi. cbv zeta. do 5 (split; [done|]). intros r.
    pose proof (props_of_toggleHandler t i c f b t q r) as (Hd & Hx & Hro & Hti & Hbd & Hl).
    cbv zeta in Hd, Hx, Hro, Hti, Hbd, Hl.
    split; [intros H1 H2; by rewrite Hd, !decide_False|].
    split; [intros H1; by rewrite Hx, decide_False|].
    do 3 (split; [done|]). rewrite Hl. case_decide as E; [|done]. subst r.
    rewrite list_fmap_insert. apply list_insert_id.
    by rewrite list_lookup_fmap, Hi.
  - intros q r. apply click_codes.
  - intros q c Hl. unfold click. rewrite Hl. simpl. unfold run_click. by rewrite Hl.
Qed.

Lemma bind_installs_toggle_keeps_witness :
  let q := (bind AnatomyScript section0 mounted).2 in
  HitClick AnatomyScript (0%nat, [0%nat; 2%nat; 0%nat])
    ∈ listeners (props_of q (0%nat, [0%nat; 2%nat; 0%nat]))
  /\ click toggle0 q = toggleHandler toggle0 0 true front0 back0 toggle0 q
  /\ code_of <$> listeners (props_of (click toggle0 q) chest0)
     = code_of <$> listeners (props_of q chest0).
Proof.
  assert (Hr : resolve mounted section0 = Some (front0, back0, toggle0))
    by (vm_compute; reflexivity).
  assert (Hb : bind AnatomyScript section0 mounted
               = (true, (bind AnatomyScript section0 mounted).2))
    by (vm_compute; reflexivity).
  destruct (bind_installs_toggle_keeps AnatomyScript section0 mounted _
              front0 back0 toggle0 Hr Hb) as (_ & Hin & _ & Hcodes & Hclick).
  cbv zeta. split; [|split].
  - apply (Hin (Node "button" (Some "toggleViewBtn") [] [])); [reflexivity ..|].
    right. vm_compute. left.
  - apply Hclick. vm_compute; reflexivity.
  - apply Hcodes.
Defined.

End HitElementClaims.

(** ** Further properties: the retry session *)
Section SessionFacts.
Import Binder.
Variable host : nat -> page -> page.
Variables maxTries delayMs : nat.

Lemma attempt_failed pg c pg' :
  AnatomyJs.attempt pg = (false, c, pg') ->
  pg' = pg /\ c = (AnatomyJs.findDiagram pg).2.
Proof.
  unfold AnatomyJs.attempt. destruct (AnatomyJs.findDiagram pg) as [s d]. simpl.
  destruct d; [|by intros [= <- <-]].
  destruct (AnatomyJs.bindDiagram s pg) as [ok pg''] eqn:E.
  intros [= -> <- <-]. by apply bindDiagram_false in E.
Qed.

Lemma attempt_bound pg pg' c :
  AnatomyJs.attempt pg = (true, c, pg') -> c = true.
Proof.
  unfold AnatomyJs.attempt. destruct (AnatomyJs.findDiagram pg) as [s d]. simpl.
  destruct d; [|done]. destruct (AnatomyJs.bindDiagram s pg). by intros [= _ <- _].
Qed.

Lemma failing_attempt pg :
  failing pg -> AnatomyJs.attempt pg = (false, (AnatomyJs.findDiagram pg).2, pg).
Proof.
  unfold failing. destruct (AnatomyJs.attempt pg) as [[ok c] pg'] eqn:E. simpl.
  intros ->. by destruct (attempt_failed _ _ _ E) as [-> ->].
Qed.

Lemma sawDiagram_S pg t k :
  sawDiagram host pg t (S k)
  = ((if (AnatomyJs.findDiagram (pageAt host pg t)).2 then 1 else 0)
     + sawDiagram host pg (S t) k)%nat.
Proof.
  unfold sawDiagram. simpl seq. rewrite filter_cons.
  destruct (AnatomyJs.findDiagram (pageAt host pg t)).2; by case_decide.
Qed.

Lemma sawDiagram_snoc pg t k :
  sawDiagram host pg t (S k)
  = (sawDiagram host pg t k
     + (if (AnatomyJs.findDiagram (pageAt host pg (t + k))).2 then 1 else 0))%nat.
Proof.
  unfold sawDiagram. rewrite seq_S, filter_app, length_app. f_equal.
  rewrite filter_cons, filter_nil.
  destruct (AnatomyJs.findDiagram (pageAt host pg (t + k))).2; by case_decide.
Qed.

Lemma sawDiagram_le pg t k : (sawDiagram host pg t k <= k)%nat.
Proof.
  unfold sawDiagram. etransitivity; [apply length_filter|]. by rewrite length_seq.
Qed.

(** [k] ticks in a row that do not bind: the page is the host's, the calls
    are counted. *)
Lemma tick_fails pg0 k : forall t fuel calls,
  (k <= fuel)%nat ->
  (forall j, (t <= j < t + k)%nat -> failing (pageAt host pg0 j)) ->
  (k <> 0%nat -> t + k < maxTries)%nat ->
  AnatomyJs.tick fuel host maxTries delayMs t calls (pageAt host pg0 t)
  = AnatomyJs.tick (fuel - k) host maxTries delayMs (t + k)
      (calls + sawDiagram host pg0 t k) (pageAt host pg0 (t + k)).
Proof.
  induction k as [|k IH]; intros t fuel calls Hf Hfail Hlt.
  - unfold sawDiagram. simpl. by rewrite !Nat.add_0_r, Nat.sub_0_r.
  - destruct fuel as [|fuel]; [lia|].
    simpl AnatomyJs.tick. rewrite (failing_attempt _ (Hfail t ltac:(lia))).
    destruct (Nat.leb_spec maxTries (S t)); [lia|].
    change (host t (pageAt host pg0 t)) with (pageAt host pg0 (S t)).
    rewrite IH; [|lia|intros j Hj; apply Hfail; lia|lia].
    rewrite sawDiagram_S.
    replace (S t + k)%nat with (t + S k)%nat by lia. simpl Nat.sub.
    f_equal. destruct (AnatomyJs.findDiagram (pageAt host pg0 t)).2; lia.
Qed.

Lemma tick_bounds : forall fuel tries calls pg,
  (maxTries - tries < fuel)%nat ->
  exists s pg',
    AnatomyJs.tick fuel host maxTries delayMs tries calls pg = Some (s, pg')
    /\ (tries < AnatomyJs.ticks s <= Nat.max (S tries) maxTries)%nat
    /\ (calls <= AnatomyJs.bindCalls s <= calls + (AnatomyJs.ticks s - tries))%nat
    /\ AnatomyJs.waitedMs s = ((AnatomyJs.ticks s - 1) * delayMs)%nat
    /\ (AnatomyJs.ending s = AnatomyJs.Bound /\ (calls < AnatomyJs.bindCalls s)%nat
        \/ AnatomyJs.ending s = AnatomyJs.GaveUp /\ (maxTries <= AnatomyJs.ticks s)%nat).
Proof.
  induction fuel as [|fuel IH]; intros tries calls pg Hf; [lia|].
  simpl. destruct (AnatomyJs.attempt pg) as [[ok c] pg'] eqn:E.
  destruct ok.
  - apply attempt_bound in E as ->. eexists _, _. split; [done|]. simpl.
    replace (tries - 0)%nat with tries by lia. repeat split; try lia. left. split; [done|lia].
  - destruct (Nat.leb_spec maxTries (S tries)).
    + eexists _, _. split; [done|]. simpl.
      replace (tries - 0)%nat with tries by lia.
      repeat split; try (destruct c; lia). right. split; [done|lia].
    + destruct (IH (S tries) (if c then S calls else calls) (host tries pg') ltac:(lia))
        as (s & pg'' & -> & Ht & Hc & Hw & He).
      exists s, pg''. split; [done|]. repeat split; try lia.
      * destruct c; lia.
      * destruct c; lia.
      * destruct He as [[? ?]|[? ?]]; [left|right]; split; try done. destruct c; lia.
Qed.

End SessionFacts.

Section SessionTheorems.

(** X1. Whatever the host does between ticks, a session started on a
    diagram route ends: it runs at least one tick and at most [maxTries]
    (one when [maxTries] is 0), calls [bindDiagram] at most once per tick,
    has asked [setTimeout] for [delayMs] once per tick but the last, and
    ends bound after at least one call or gives up on the last tick. *)
Theorem session_bounds (host : nat -> page -> page) (maxTries delayMs : nat) (pg : page) :
  AnatomyJs.isDiagramRoute pg = true ->
  exists s pg',
    AnatomyJs.tryBindWithRetries host maxTries delayMs pg = Some (s, pg')
    /\ (1 <= AnatomyJs.ticks s <= Nat.max 1 maxTries)%nat
    /\ (AnatomyJs.bindCalls s <= AnatomyJs.ticks s)%nat
    /\ AnatomyJs.waitedMs s = ((AnatomyJs.ticks s - 1) * delayMs)%nat
    /\ (AnatomyJs.ending s = AnatomyJs.Bound /\ (1 <= AnatomyJs.bindCalls s)%nat
        \/ AnatomyJs.ending s = AnatomyJs.GaveUp
           /\ AnatomyJs.ticks s = Nat.max 1 maxTries).
Proof.
  intros Hr. unfold AnatomyJs.tryBindWithRetries. rewrite Hr.
  destruct (tick_bounds host maxTries delayMs (S maxTries) 0 0 pg ltac:(lia))
    as (s & pg' & E & Ht & Hc & Hw & He).
  exists s, pg'. split; [done|]. repeat split; try lia.
  destruct He as [[? ?]|[? ?]]; [left|right]; split; try done; lia.
Qed.

Lemma session_bounds_witness :
  exists s pg',
    AnatomyJs.tryBindWithRetries idle 3 50 halfMounted = Some (s, pg')
    /\ (1 <= AnatomyJs.ticks s <= 3)%nat.
Proof.
  assert (Hr : AnatomyJs.isDiagramRoute halfMounted = true) by reflexivity.
  destruct (session_bounds idle 3 50 halfMounted Hr) as (s & pg' & E & Ht & _).
  exists s, pg'. split; [exact E|exact Ht].
Defined.

(** X2. The first tick that finds a complete, unbound surface binds it and
    is the last one: the session ends on it, counting one call for it and
    one for every earlier tick that found a diagram it could not bind (a
    surface still incomplete, or bound already); those earlier ticks leave
    the page to the host. *)
Theorem session_first_success
    (host : nat -> page -> page) (maxTries delayMs k : nat) (pg : page) (s : ref) :
  AnatomyJs.isDiagramRoute pg = true ->
  (k < Nat.max 1 maxTries)%nat ->
  (forall j, (j < k)%nat -> failing (pageAt host pg j)) ->
  surfaceReady (pageAt host pg k) s ->
  AnatomyJs.tryBindWithRetries host maxTries delayMs pg
  = Some (AnatomyJs.Session (S k) (S (sawDiagram host pg 0 k)) (k * delayMs) AnatomyJs.Bound,
          (AnatomyJs.bindDiagram (Some s) (pageAt host pg k)).2).
Proof.
  intros Hr Hk Hfail Hs. unfold AnatomyJs.tryBindWithRetries. rewrite Hr.
  change pg with (pageAt host pg 0) at 1.
  rewrite (tick_fails host maxTries delayMs pg k 0 (S maxTries) 0);
    [|lia|intros j Hj; apply Hfail; lia|lia].
  simpl Nat.add.
  replace (S maxTries - k)%nat with (S (maxTries - k)) by lia.
  by rewrite (tick_ready host maxTries delayMs _ _ _ _ _ Hs).
Qed.

Lemma session_first_success_witness :
  AnatomyJs.tryBindWithRetries (rendersAt 3) 40 50 halfMounted
  = Some (AnatomyJs.Session 5 5 200 AnatomyJs.Bound,
          (AnatomyJs.bindDiagram (Some (1%nat, [0%nat]))
             (pageAt (rendersAt 3) halfMounted 4)).2).
Proof.
  assert (Hr : AnatomyJs.isDiagramRoute halfMounted = true) by reflexivity.
  apply (session_first_success (rendersAt 3) 40 50 4 halfMounted (1%nat, [0%nat]) Hr).
  - simpl; lia.
  - intros j Hj. destruct j as [|[|[|[|j]]]]; [vm_compute; reflexivity ..|lia].
  - split; [vm_compute; reflexivity|]. split; [vm_compute; congruence|].
    vm_compute. eexists; reflexivity.
Defined.

(** X3. A session none of whose ticks binds gives up by itself on tick
    [maxTries] (tick 1 when [maxTries] is 0), having called [bindDiagram]
    once for each tick that found a diagram, and the page it leaves is the
    host's: the ticks wrote nothing on it and logged nothing. *)
Theorem session_never_binds
    (host : nat -> page -> page) (maxTries delayMs : nat) (pg : page) :
  AnatomyJs.isDiagramRoute pg = true ->
  (forall j, (j < Nat.max 1 maxTries)%nat -> failing (pageAt host pg j)) ->
  AnatomyJs.tryBindWithRetries host maxTries delayMs pg
  = Some (AnatomyJs.Session (Nat.max 1 maxTries)
            (sawDiagram host pg 0 (Nat.max 1 maxTries))
            ((Nat.max 1 maxTries - 1) * delayMs) AnatomyJs.GaveUp,
          pageAt host pg (Nat.max 1 maxTries - 1)).
Proof.
  intros Hr Hfail. unfold AnatomyJs.tryBindWithRetries. rewrite Hr.
  set (m := (Nat.max 1 maxTries - 1)%nat).
  change pg with (pageAt host pg 0) at 1.
  rewrite (tick_fails host maxTries delayMs pg m 0 (S maxTries) 0);
    [|lia|intros j Hj; apply Hfail; lia|lia].
  simpl Nat.add.
  replace (S maxTries - m)%nat with (S (maxTries - m)) by lia.
  simpl AnatomyJs.tick. rewrite (failing_attempt _ (Hfail m ltac:(lia))).
  destruct (Nat.leb_spec maxTries (S m)); [|lia].
  assert (Em : Nat.max 1 maxTries = S m) by lia. rewrite Em.
  rewrite (sawDiagram_snoc host pg 0 m). rewrite Nat.add_0_l.
  destruct (AnatomyJs.findDiagram (pageAt host pg m)).2; do 3 f_equal; lia.
Qed.

Lemma session_never_binds_witness :
  AnatomyJs.tryBindWithRetries idle 40 50 boundMounted
  = Some (AnatomyJs.Session 40 40 1950 AnatomyJs.GaveUp, boundMounted).
Proof.
  assert (Hr : AnatomyJs.isDiagramRoute boundMounted = true) by reflexivity.
  assert (Hfail : forall j, (j < Nat.max 1 40)%nat -> failing (pageAt idle boundMounted j)).
  { intros j _. rewrite pageAt_idle. vm_compute; reflexivity. }
  pose proof (session_never_binds idle 40 50 boundMounted Hr Hfail) as E.
  rewrite pageAt_idle in E.
  replace (sawDiagram idle boundMounted 0 (Nat.max 1 40)) with 40%nat in E; [exact E|].
  vm_compute; reflexivity.
Defined.

End SessionTheorems.

(** ** Further properties: activations *)
Section ActivationFacts.
Import Binder Events.

Lemma kept_refl pg : kept pg pg.
Proof. by intros r. Qed.

Lemma kept_trans pg1 pg2 pg3 : kept pg1 pg2 -> kept pg2 pg3 -> kept pg1 pg3.
Proof.
  intros H1 H2 r. destruct (H1 r) as (?&?&?&?), (H2 r) as (?&?&?&?).
  repeat split; congruence.
Qed.

Lemma run_click_kept el pg i : kept pg (run_click el pg i).
Proof.
  intros r. split; [|split; [|split]]; [| | |apply run_click_codes];
    unfold run_click;
    destruct (listeners (props_of pg el) !! i) as [[c f b t|e|o e]|]; try done;
    try (by destruct (props_of_toggleHandler el i c f b t pg r) as (_ & _ & ? & ? & ? & _));
    destruct (hitClickHandler_frame o e pg) as (Hs & _);
    by rewrite (props_of_store _ _ _ Hs).
Qed.

Lemma click_kept el pg : kept pg (click el pg).
Proof.
  unfold click. apply (foldl_inv (kept pg)); [apply kept_refl|].
  intros q i _ Hq. eapply kept_trans; [exact Hq|apply run_click_kept].
Qed.

Lemma keydown_kept el key pg : kept pg (keydown el key pg).2.
Proof.
  unfold keydown.
  apply (foldl_inv (fun st : bool * page => kept pg st.2)); [apply kept_refl|].
  intros st i _ Hst. unfold run_keydown.
  destruct (listeners (props_of st.2 el) !! i) as [[c f b t|e|o e]|]; try done.
  unfold hitKeydownHandler. destruct (_ || _); [|done]. simpl.
  eapply kept_trans; [exact Hst|apply click_kept].
Qed.

Lemma activations_kept acts : forall pg, kept pg (foldl activate pg acts).
Proof.
  induction acts as [|a acts IH]; intros pg; [apply kept_refl|]. simpl.
  eapply kept_trans; [|apply IH].
  destruct a; [apply click_kept|apply keydown_kept].
Qed.

(** X4. Once [bindDiagram] has bound a surface, no pointer or keyboard
    activation of any element, in any number and order, unbinds it: a later
    [bindDiagram] on that surface returns [false] and leaves the page as it
    finds it, and every element still has the role, the tab index and the
    closures it had after the bind. *)
Theorem bound_stays_bound (root : option ref) (pg pg1 : page) (acts : list activation) :
  AnatomyJs.bindDiagram root pg = (true, pg1) ->
  let q := foldl activate pg1 acts in
  AnatomyJs.bindDiagram root q = (false, q) /\ kept pg1 q.
Proof.
  intros Hb. cbv zeta. split; [|apply activations_kept].
  apply bindDiagram_true in Hb as (r & f & b & t & -> & _ & ->).
  apply bindDiagram_bound.
  destruct (activations_kept acts
              (update r (set_bound "1") (wire AnatomyScript f b t pg)) r) as (_ & _ & -> & _).
  by rewrite props_of_update_eq.
Qed.

Lemma bound_stays_bound_witness :
  let q := foldl activate boundMounted
             [Pointer toggle0; Key calves0 "Enter"; Pointer chest0; Key toggle0 " "] in
  AnatomyJs.bindDiagram (Some section0) q = (false, q).
Proof.
  assert (Hb : AnatomyJs.bindDiagram (Some section0) mounted = (true, boundMounted))
    by (vm_compute; reflexivity).
  exact (proj1 (bound_stays_bound (Some section0) mounted boundMounted
                  [Pointer toggle0; Key calves0 "Enter"; Pointer chest0; Key toggle0 " "] Hb)).
Defined.

(** X5. A key other than Enter and Space, pressed on any element of any
    page, changes nothing and is not prevented: whatever closures the
    element carries, none of them acts. *)
Theorem other_keys_ignored (el : ref) (key : string) (pg : page) :
  key <> "Enter" -> key <> " " -> keydown el key pg = (false, pg).
Proof.
  intros H1 H2. unfold keydown.
  apply (foldl_inv (fun st : bool * page => st = (false, pg))); [done|].
  intros st i _ ->. unfold run_keydown. simpl.
  destruct (listeners (props_of pg el) !! i) as [[c f b t|e|o e]|]; try done.
  unfold hitKeydownHandler. by rewrite !bool_decide_eq_false_2.
Qed.

Lemma other_keys_ignored_witness : keydown chest0 "Tab" boundMounted = (false, boundMounted).
Proof. apply other_keys_ignored; discriminate. Defined.

Lemma table_values owner id tpl :
  table owner !! id = Some tpl ->
  tpl = id +:+ "-template"
  /\ AnatomyJs.encodeSelection tpl = AnatomyJs.ROUTE_PREFIX +:+ "/" +:+ id.
Proof. destruct owner; apply muscleToTemplate_entries. Qed.

Lemma append_nonempty (s t : string) : t <> "" -> s +:+ t <> "".
Proof. destruct s; [done|]. by simpl. Qed.


Lemma hitClickHandler_mapped_route
    (owner : script) (el : ref) (pg : page) (tpl : string) (content : fragment) (g : nat) :
  table owner !! id_of pg el = Some tpl ->
  templates pg !! tpl = Some content ->
  app pg = Some g ->
  AnatomyJs.isDiagramRoute (hitClickHandler owner el pg) = true.
Proof.
  intros Ht Hc Ha. unfold hitClickHandler. rewrite Ht.
  destruct (table_values _ _ _ Ht) as [E R].
  rewrite bool_decide_eq_false_2 by (rewrite E; by apply append_nonempty).
  rewrite showTemplate_same, Hc, Ha.
  unfold AnatomyJs.isDiagramRoute, startsWith. simpl hash. rewrite R.
  apply prefix_append.
Qed.



End ActivationFacts.

(** ** Further properties: what a bind reaches *)
Section SurfaceFacts.
Import Binder Events.

Lemma below_inside gone : forall n p q,
  q ∈ below gone p n -> exists s : path, s <> [] /\ q = p ++ s.
Proof.
  induction n as [tg i c ks IH] using node_induction. intros p q. simpl.
  destruct (gone p); [by intros H%elem_of_nil|].
  generalize 0%nat as j. induction IH as [|k ks Hk _ IHks]; intros j Hq.
  - by apply elem_of_nil in Hq.
  - apply elem_of_cons in Hq as [->|Hq]; [by exists [j]|].
    apply elem_of_app in Hq as [Hq|Hq].
    + destruct (Hk _ _ Hq) as (s & _ & ->). exists (j :: s). split; [done|].
      by rewrite <- app_assoc.
    + by apply (IHks (S j)).
Qed.

Lemma descendants_inside pg root r : r ∈ descendants pg root -> inside root r.
Proof.
  unfold descendants. destruct (node_of pg root) as [n|]; [|by intros H%elem_of_nil].
  intros H. apply list_elem_of_fmap in H as (q & -> & Hq). split; [done|].
  by apply below_inside in Hq.
Qed.

Lemma querySelectorAll_inside pg root sel r :
  r ∈ querySelectorAll pg root sel -> inside root r.
Proof.
  unfold querySelectorAll. intros H. apply list_elem_of_filter in H as [_ H].
  by apply descendants_inside in H.
Qed.

Lemma querySelector_inside pg root sel r :
  querySelector pg root sel = Some r -> inside root r.
Proof.
  unfold querySelector. intros H. apply head_Some_elem_of in H.
  by apply querySelectorAll_inside in H.
Qed.

Lemma inside_trans a b c : inside a b -> inside b c -> inside a c.
Proof.
  intros [E1 (s1 & H1 & P1)] [E2 (s2 & H2 & P2)]. split; [congruence|].
  exists (s1 ++ s2). split; [by destruct s1|]. by rewrite P2, P1, app_assoc.
Qed.

Lemma inside_irrefl a : ~ inside a a.
Proof.
  intros [_ (s & Hs & E)]. apply Hs.
  apply (f_equal length) in E. rewrite length_app in E.
  destruct s; [done|simpl in E; lia].
Qed.

Lemma props_of_prepared_ne f b t pg r :
  r <> f -> r <> b -> r <> t -> props_of (prepared f b t pg) r = props_of pg r.
Proof.
  intros. unfold prepared, defaultState, addEventListener.
  rewrite !props_of_update. by rewrite !decide_False.
Qed.

Lemma props_of_forEach_ne owner r els : forall pg,
  r ∉ els -> props_of (foldl (makeActivatable owner) pg els) r = props_of pg r.
Proof.
  induction els as [|el els IH]; intros pg Hn; [done|].
  apply not_elem_of_cons in Hn as [Hne Hn]. simpl. rewrite IH by done.
  rewrite props_of_makeActivatable. by rewrite decide_False.
Qed.

(** X8. A successful bind by either script writes only inside the surface
    it was given: hash, mounted content, templates and console stay, every
    element that is neither the surface nor below it keeps all it had, and
    on the surface element itself only the marker of [bindDiagram] is new.
    The three sub-elements and every hit element lie below the surface. *)
Theorem bind_writes_inside_surface
    (owner : script) (root : ref) (pg pg' : page) (f b t : ref) :
  resolve pg root = Some (f, b, t) ->
  bind owner root pg = (true, pg') ->
  hash pg' = hash pg /\ app pg' = app pg /\ frags pg' = frags pg
  /\ templates pg' = templates pg /\ console pg' = console pg
  /\ inside root f /\ inside root b /\ inside root t
  /\ (forall el, el ∈ clickable (prepared f b t pg) f b -> inside root el)
  /\ (forall r, r <> root -> ~ inside root r -> props_of pg' r = props_of pg r)
  /\ props_of pg' root
     = match owner with
       | AnatomyScript => set_bound "1" (props_of pg root)
       | AutowireScript => props_of pg root
       end.
Proof.
  intros Hr Hb.
  destruct (frame_bind owner root pg pg' Hb) as (-> & -> & -> & -> & ->).
  do 5 (split; [done|]).
  destruct (resolve_Some _ _ _ _ _ Hr) as (Hf & Hk & Ht).
  apply querySelector_inside in Hf, Hk, Ht.
  do 3 (split; [done|]).
  assert (Hels : forall el, el ∈ clickable (prepared f b t pg) f b -> inside root el).
  { intros el Hel. unfold clickable in Hel. apply elem_of_app in Hel as [H|H];
      apply querySelectorAll_inside in H.
    - exact (inside_trans _ _ _ Hf H).
    - exact (inside_trans _ _ _ Hk H). }
  split; [exact Hels|].
  assert (Hout : forall r, ~ inside root r ->
            props_of (wire owner f b t pg) r = props_of pg r).
  { intros r Hn. unfold wire. rewrite props_of_forEach_ne.
    - apply props_of_prepared_ne; intros ->; by apply Hn.
    - intros Hel. by apply Hn, Hels. }
  apply bind_true in Hb as (f' & b' & t' & Hr' & ->).
  rewrite Hr in Hr'. injection Hr' as <- <- <-. split.
  - intros r Hne Hn. rewrite <- (Hout r Hn).
    destruct owner; simpl; [|done]. by apply props_of_update_ne.
  - rewrite <- (Hout root (inside_irrefl root)).
    destruct owner; simpl; [|done]. by rewrite props_of_update_eq.
Qed.

Lemma bind_writes_inside_surface_witness :
  inside section0 chest0
  /\ props_of boundMounted (1%nat, [0%nat]) = props_of mounted (1%nat, [0%nat])
  /\ props_of boundMounted section0 = set_bound "1" (props_of mounted section0).
Proof.
  assert (Hr : resolve mounted section0 = Some (front0, back0, toggle0))
    by (vm_compute; reflexivity).
  assert (Hb : bind AnatomyScript section0 mounted = (true, boundMounted))
    by (vm_compute; reflexivity).
  destruct (bind_writes_inside_surface AnatomyScript section0 mounted boundMounted
              front0 back0 toggle0 Hr Hb)
    as (_ & _ & _ & _ & _ & _ & _ & _ & Hels & Hout & Hroot).
  split; [apply Hels; vm_compute; left|]. split; [|exact Hroot].
  apply Hout; [discriminate|]. intros [E _]. discriminate E.
Defined.

End SurfaceFacts.

(** ** Further properties: binding again *)
Section Rebinding.
Import Binder Events.

Lemma below_all_agree fr (gone gone' : path -> bool) :
  (forall q, gone' q = gone q
             \/ exists nt, node_at fr q = Some nt /\ childNodes nt = []) ->
  below_all gone' 0 fr = below_all gone 0 fr.
Proof.
  intros Hg.
  assert (H : forall l pre, fr = pre ++ l ->
            below_all gone' (length pre) l = below_all gone (length pre) l).
  { induction l as [|k l IH]; intros pre E; [done|]. simpl.
    assert (Hk : node_at fr [length pre] = Some k).
    { simpl. subst fr. by rewrite list_lookup_middle. }
    rewrite (below_agree fr gone gone' Hg k [length pre] Hk). do 2 f_equal.
    specialize (IH (pre ++ [k])). rewrite length_app, Nat.add_1_r in IH.
    apply IH. by rewrite <- app_assoc. }
  by apply (H fr []).
Qed.

Lemma agrees_refl pg : agrees pg pg.
Proof. repeat split. by left. Qed.

Lemma app_querySelector_agree pg pg' sel :
  agrees pg pg' -> app_querySelector pg' sel = app_querySelector pg sel.
Proof.
  intros (Hfr & Ha & Hx). unfold app_querySelector. rewrite Ha, Hfr.
  destruct (app pg) as [g|]; [|done].
  destruct (frags pg !! g) as [fr|] eqn:Hf; [|done].
  rewrite (below_all_agree fr (text_only pg g) (text_only pg' g)).
  - f_equal. apply list_filter_iff. intros x.
    by rewrite (matches_agree pg pg' sel x Hfr).
  - intros q. destruct (Hx (g, q)) as [E|(nt & Hnt & Hleaf)].
    + left. unfold text_only. by rewrite E.
    + right. exists nt. unfold node_of in Hnt. cbn [fst snd] in Hnt.
      unfold fragment in *. by rewrite Hf in Hnt.
Qed.

Lemma agrees_resolve pg pg' root :
  agrees pg pg' -> resolve pg' root = resolve pg root.
Proof. intros (Hfr & _ & Hx). by apply resolve_agree. Qed.

Lemma agrees_clickable pg pg' f b :
  agrees pg pg' -> clickable pg' f b = clickable pg f b.
Proof.
  intros (Hfr & _ & Hx). unfold clickable.
  by rewrite !(querySelectorAll_agree pg pg' _ _ Hfr Hx).
Qed.

(** A bind keeps the page as queries see it, when the toggle control has
    no child element to lose. *)
Lemma agrees_bind owner root pg0 pg pg' f b t nt :
  agrees pg0 pg ->
  node_of pg0 t = Some nt -> childNodes nt = [] ->
  resolve pg root = Some (f, b, t) ->
  bind owner root pg = (true, pg') ->
  agrees pg0 pg'.
Proof.
  intros (Hfr & Ha & Hx) Hnt Hleaf Hr Hb.
  destruct (frame_bind _ _ _ _ Hb) as (_ & Ha' & Hfr' & _).
  split; [congruence|]. split; [congruence|].
  intros q. destruct (decide (q = t)) as [->|E]; [right; by exists nt|].
  pose proof (props_after_bind _ _ _ _ _ _ _ q Hr Hb) as (_ & Ht & _).
  cbv zeta in Ht. rewrite Ht, decide_False by done. apply Hx.
Qed.

Lemma filter_installed owner r els : List.filter is_toggle (installed owner r els) = [].
Proof.
  pose proof (installed_shape owner r els) as H.
  induction H as [|l ls [-> | ->] _ IH]; [done|by simpl ..].
Qed.

Lemma toggleClosures_bind owner root pg pg' f b t :
  resolve pg root = Some (f, b, t) ->
  bind owner root pg = (true, pg') ->
  toggleClosures pg' t = S (toggleClosures pg t).
Proof.
  intros Hr Hb.
  pose proof (props_after_bind _ _ _ _ _ _ _ t Hr Hb) as (_ & _ & Hl & _).
  cbv zeta in Hl. rewrite decide_True in Hl by done.
  unfold toggleClosures. rewrite Hl, !List.filter_app, filter_installed. simpl.
  rewrite !length_app. simpl. lia.
Qed.

Lemma listeners_bind_hit owner root pg0 pg pg' f b t nt el :
  agrees pg0 pg ->
  node_of pg0 t = Some nt -> childNodes nt = [] ->
  resolve pg root = Some (f, b, t) ->
  bind owner root pg = (true, pg') ->
  el <> t ->
  listeners (props_of pg' el)
  = listeners (props_of pg el) ++ installed owner el (clickable pg0 f b).
Proof.
  intros Hag Hnt Hleaf Hr Hb Hne.
  pose proof (props_after_bind _ _ _ _ _ _ _ el Hr Hb) as (_ & _ & Hl & _).
  cbv zeta in Hl. rewrite decide_False in Hl by done. rewrite Hl. do 2 f_equal.
  destruct (resolve_distinct _ _ _ _ _ Hr) as [Hfb _].
  destruct Hag as (Hfr & Ha & Hx). unfold clickable.
  assert (Hnt' : node_of pg t = Some nt) by (unfold node_of in *; by rewrite Hfr).
  rewrite !(querySelectorAll_prepared pg f b t nt _ _ Hfb Hnt' Hleaf).
  by rewrite !(querySelectorAll_agree pg0 pg _ _ Hfr Hx).
Qed.

(** X9. The marker of [bindDiagram] protects a surface from [bindDiagram]
    only.  On a surface whose toggle control has no child element,
    [initBodyDiagram] binds again what [bindDiagram] has bound, and
    [bindDiagram] binds again what [initBodyDiagram] has bound (it left no
    marker); either way the toggle control then carries two toggle closures
    more than before the first bind. *)
Theorem binders_ignore_each_other (root : ref) (pg pg1 : page) (f b t : ref) (nt : node) :
  resolve pg root = Some (f, b, t) ->
  node_of pg t = Some nt -> childNodes nt = [] ->
  (AnatomyJs.bindDiagram (Some root) pg = (true, pg1) ->
   Autowire.initBodyDiagram root pg1 = (true, wire AutowireScript f b t pg1)
   /\ toggleClosures (wire AutowireScript f b t pg1) t = S (S (toggleClosures pg t)))
  /\ (Autowire.initBodyDiagram root pg = (true, pg1) ->
      dataset_bound (props_of pg root) <> Some "1" ->
      AnatomyJs.bindDiagram (Some root) pg1
      = (true, update root (set_bound "1") (wire AnatomyScript f b t pg1))
      /\ toggleClosures (update root (set_bound "1") (wire AnatomyScript f b t pg1)) t
         = S (S (toggleClosures pg t))).
Proof.
  intros Hr Hnt Hleaf.
  assert (Hsecond : forall o, bind o root pg = (true, pg1) -> resolve pg1 root = Some (f, b, t)).
  { intros o Hb. rewrite <- Hr. apply agrees_resolve.
    by apply (agrees_bind o root pg pg pg1 f b t nt (agrees_refl pg)). }
  split.
  - intros Hb. pose proof (Hsecond AnatomyScript Hb) as Hr1.
    assert (Hb2 : bind AutowireScript root pg1 = (true, wire AutowireScript f b t pg1)).
    { unfold bind, Autowire.initBodyDiagram. by rewrite Hr1. }
    split; [exact Hb2|].
    rewrite (toggleClosures_bind _ _ _ _ _ _ _ Hr1 Hb2).
    by rewrite (toggleClosures_bind AnatomyScript _ _ _ _ _ _ Hr Hb).
  - intros Hb Hm. pose proof (Hsecond AutowireScript Hb) as Hr1.
    assert (Hm1 : dataset_bound (props_of pg1 root) <> Some "1").
    { apply (bind_true AutowireScript) in Hb as (f' & b' & t' & Hr' & ->).
      rewrite Hr in Hr'. injection Hr' as <- <- <-. simpl. unfold wire.
      destruct (props_of_forEach AutowireScript root
                  (clickable (prepared f b t pg) f b) (prepared f b t pg))
        as (_ & _ & -> & _).
      destruct (resolve_distinct _ _ _ _ _ Hr) as [Hfb _].
      by destruct (props_of_prepared f b t pg root Hfb) as (_ & _ & _ & _ & -> & _). }
    assert (Hb2 : bind AnatomyScript root pg1
                  = (true, update root (set_bound "1") (wire AnatomyScript f b t pg1))).
    { by apply bindDiagram_ready. }
    split; [exact Hb2|].
    rewrite (toggleClosures_bind _ _ _ _ _ _ _ Hr1 Hb2).
    by rewrite (toggleClosures_bind AutowireScript _ _ _ _ _ _ Hr Hb).
Qed.

Lemma binders_ignore_each_other_witness :
  Autowire.initBodyDiagram section0 boundMounted
  = (true, wire AutowireScript front0 back0 toggle0 boundMounted)
  /\ toggleClosures (wire AutowireScript front0 back0 toggle0 boundMounted) toggle0 = 2%nat.
Proof.
  assert (Hr : resolve mounted section0 = Some (front0, back0, toggle0))
    by (vm_compute; reflexivity).
  assert (Hb : AnatomyJs.bindDiagram (Some section0) mounted = (true, boundMounted))
    by (vm_compute; reflexivity).
  destruct (binders_ignore_each_other section0 mounted boundMounted front0 back0 toggle0
              (Node "button" (Some "toggleViewBtn") [] []) Hr eq_refl eq_refl) as [H _].
  exact (H Hb).
Defined.

Lemma tryInit_binds pg0 pg card f b t :
  agrees pg0 pg ->
  app_querySelector pg0 (TagClass "section" "card") = Some card ->
  resolve pg0 card = Some (f, b, t) ->
  Autowire.tryInit pg = wire AutowireScript f b t pg
  /\ bind AutowireScript card pg = (true, wire AutowireScript f b t pg)
  /\ resolve pg card = Some (f, b, t).
Proof.
  intros Hag Hc Hr.
  assert (Hr1 : resolve pg card = Some (f, b, t)) by by rewrite (agrees_resolve pg0 pg).
  assert (Hc1 : app_querySelector pg (TagClass "section" "card") = Some card)
    by by rewrite (app_querySelector_agree pg0 pg).
  assert (Hb : bind AutowireScript card pg = (true, wire AutowireScript f b t pg)).
  { unfold bind, Autowire.initBodyDiagram. by rewrite Hr1. }
  split; [|by split].
  unfold Autowire.tryInit. rewrite Hc1.
  destruct (app pg) as [g|] eqn:Ha; [|by unfold app_querySelector in Hc1; rewrite Ha in Hc1].
  destruct (resolve_Some _ _ _ _ _ Hr1) as (-> & _). simpl.
  unfold bind in Hb. by rewrite Hb.
Qed.

(** X10. Every run of [tryInit] (one at [DOMContentLoaded], one per batch
    of observed mutations) on a rendered surface whose toggle control has
    no child element binds that surface once more: after [n] runs the
    toggle control carries [n] more toggle closures, and every hit element
    other than the control [n] times the keydown and click closures of one
    bind, at least [2 * n] listeners more. *)
Theorem tryInit_accumulates (pg : page) (card f b t : ref) (nt : node) (n : nat) :
  app_querySelector pg (TagClass "section" "card") = Some card ->
  resolve pg card = Some (f, b, t) ->
  node_of pg t = Some nt -> childNodes nt = [] ->
  let q := Nat.iter n Autowire.tryInit pg in
  toggleClosures q t = (toggleClosures pg t + n)%nat
  /\ forall el, el ∈ clickable pg f b -> el <> t ->
       length (listeners (props_of q el))
       = (length (listeners (props_of pg el))
          + n * length (installed AutowireScript el (clickable pg f b)))%nat
       /\ (2 <= length (installed AutowireScript el (clickable pg f b)))%nat.
Proof.
  intros Hc Hr Hnt Hleaf. cbv zeta.
  assert (Hinv : agrees pg (Nat.iter n Autowire.tryInit pg)
                 /\ toggleClosures (Nat.iter n Autowire.tryInit pg) t
                    = (toggleClosures pg t + n)%nat
                 /\ forall el, el <> t ->
                      length (listeners (props_of (Nat.iter n Autowire.tryInit pg) el))
                      = (length (listeners (props_of pg el))
                         + n * length (installed AutowireScript el (clickable pg f b)))%nat).
  { induction n as [|n (Hag & Htc & Hls)].
    - split; [apply agrees_refl|]. split; [simpl; lia|]. intros el _. simpl. lia.
    - change (Nat.iter (S n) Autowire.tryInit pg)
        with (Autowire.tryInit (Nat.iter n Autowire.tryInit pg)).
      destruct (tryInit_binds pg _ card f b t Hag Hc Hr) as (-> & Hb & Hr1).
      split; [by apply (agrees_bind AutowireScript card pg _ _ f b t nt Hag)|]. split.
      + rewrite (toggleClosures_bind _ _ _ _ _ _ _ Hr1 Hb), Htc. lia.
      + intros el Hne.
        rewrite (listeners_bind_hit AutowireScript card pg _ _ f b t nt el
                   Hag Hnt Hleaf Hr1 Hb Hne).
        rewrite length_app, (Hls el Hne). lia. }
  destruct Hinv as (_ & Htc & Hls). split; [exact Htc|].
  intros el Hel Hne. split; [by apply Hls|].
  destruct (installed_elem AutowireScript el _ Hel) as [Hk Hcl].
  destruct (installed AutowireScript el (clickable pg f b)) as [|x [|y l]] eqn:E.
  - by apply elem_of_nil in Hk.
  - apply list_elem_of_singleton in Hk, Hcl. congruence.
  - simpl. lia.
Qed.

Lemma tryInit_accumulates_witness :
  toggleClosures (Nat.iter 3 Autowire.tryInit mounted) toggle0 = 3%nat
  /\ length (listeners (props_of (Nat.iter 3 Autowire.tryInit mounted) chest0)) = 6%nat.
Proof.
  assert (Hc : app_querySelector mounted (TagClass "section" "card") = Some section0)
    by (vm_compute; reflexivity).
  assert (Hr : resolve mounted section0 = Some (front0, back0, toggle0))
    by (vm_compute; reflexivity).
  destruct (tryInit_accumulates mounted section0 front0 back0 toggle0
              (Node "button" (Some "toggleViewBtn") [] []) 3 Hc Hr eq_refl eq_refl)
    as [Ht Hl].
  split; [exact Ht|].
  destruct (Hl chest0) as [E _]; [vm_compute; left|discriminate|].
  rewrite E. vm_compute; reflexivity.
Defined.

End Rebinding.

(** ** Further properties: routes *)
Section RouteFacts.
Import Events.

Lemma prefix_iff (p s : string) :
  String.prefix p s = true <-> exists t, s = p +:+ t.
Proof.
  split; [|intros [t ->]; apply prefix_append].
  revert s. induction p as [|a p IH]; intros s; [by exists s|].
  destruct s as [|c s]; [done|]. simpl.
  destruct (ascii_dec a c) as [->|Hne]; intros H; [|discriminate].
  destruct (IH s H) as [t ->]. by exists t.
Qed.

Lemma replace_head (pat rep rest : string) :
  replace pat rep (pat +:+ rest) = rep +:+ rest.
Proof.
  assert (D : forall p s, drop_chars (String.length p) (p +:+ s) = s).
  { induction p as [|a p IH]; intros s; [done|]. simpl. apply IH. }
  destruct pat as [|a pat].
  - simpl. by destruct rest.
  - change (String a pat +:+ rest) with (String a (pat +:+ rest)).
    assert (P : String.prefix (String a pat) (String a (pat +:+ rest)) = true)
      by apply (prefix_append (String a pat) rest).
    cbn [replace]. rewrite P. f_equal. apply (D (String a pat) rest).
Qed.

Lemma replace_hyphenFree (s : string) :
  hyphenFree s = true -> replace "-template" "" (s +:+ "-template") = s.
Proof.
  induction s as [|c s IH]; intros H; [reflexivity|].
  simpl in H. apply andb_true_iff in H as [Hc Hs].
  change (String c s +:+ "-template") with (String c (s +:+ "-template")).
  cbn [replace]. 
  assert (P : String.prefix "-template" (String c (s +:+ "-template")) = false).
  { change (String.prefix "-template" (String c (s +:+ "-template")))
      with (match ascii_dec "-" c with
            | left _ => String.prefix "template" (s +:+ "-template")
            | right _ => false
            end).
    destruct (ascii_dec "-" c) as [<-|Hne]; [|done].
    vm_compute in Hc. discriminate. }
  rewrite P. by rewrite IH.
Qed.

(** X11. [isDiagramRoute] holds exactly of the hashes that begin with
    [#/workouts/diagram], whatever follows (a slash is not required).  For
    every region id without a hyphen the route written for the template
    [<id>-template] is [#/workouts/diagram/<id>] and reads back as [id];
    [replace] drops the first [-template] it meets, so a template id that
    begins with [-template] loses that one, not the suffix. *)
Theorem route_of_template_id :
  (forall pg, AnatomyJs.isDiagramRoute pg = true
              <-> exists rest, hash pg = AnatomyJs.ROUTE_PREFIX +:+ rest)
  /\ (forall id, hyphenFree id = true ->
        AnatomyJs.encodeSelection (id +:+ "-template")
        = AnatomyJs.ROUTE_PREFIX +:+ "/" +:+ id
        /\ stripPrefix (AnatomyJs.ROUTE_PREFIX +:+ "/")
             (AnatomyJs.encodeSelection (id +:+ "-template")) = Some id)
  /\ (forall rest, AnatomyJs.encodeSelection ("-template" +:+ rest)
                   = AnatomyJs.ROUTE_PREFIX +:+ "/" +:+ rest).
Proof.
  split; [|split].
  - intros pg. unfold AnatomyJs.isDiagramRoute, startsWith. apply prefix_iff.
  - intros id H. unfold AnatomyJs.encodeSelection. rewrite (replace_hyphenFree id H).
    split; [done|].
    change (AnatomyJs.ROUTE_PREFIX +:+ "/" +:+ id)
      with ((AnatomyJs.ROUTE_PREFIX +:+ "/") +:+ id).
    apply stripPrefix_append.
  - intros rest. unfold AnatomyJs.encodeSelection. by rewrite replace_head.
Qed.

Lemma route_of_template_id_witness :
  AnatomyJs.encodeSelection "calves_f-template" = "#/workouts/diagram/calves_f"
  /\ AnatomyJs.isDiagramRoute (Page "#/workouts/diagrams" None [] ∅ ∅ []) = true.
Proof.
  destruct route_of_template_id as (Hr & He & _). split.
  - exact (proj1 (He "calves_f" eq_refl)).
  - apply Hr. by exists "s".
Defined.

(** X12. The callback of [hashchange] and [DOMContentLoaded] does nothing
    off a diagram route.  After any activation of a region that has its
    template, the hash is a diagram route, so the next [hashchange] starts
    a session: it runs between 1 and 40 ticks on the fresh content and ends
    bound or given up. *)
Theorem activation_starts_session
    (host : nat -> page -> page) (owner : script) (el : ref) (pg : page)
    (tpl : string) (content : fragment) (g : nat) :
  (AnatomyJs.isDiagramRoute pg = false ->
   Listeners.onRouteEvent host pg
   = Some (AnatomyJs.Session 0 0 0 AnatomyJs.NotDiagramRoute, pg))
  /\ (table owner !! id_of pg el = Some tpl ->
      templates pg !! tpl = Some content ->
      app pg = Some g ->
      exists s pg',
        Listeners.onRouteEvent host (hitClickHandler owner el pg) = Some (s, pg')
        /\ (1 <= AnatomyJs.ticks s <= 40)%nat
        /\ AnatomyJs.waitedMs s = ((AnatomyJs.ticks s - 1) * 50)%nat
        /\ AnatomyJs.ending s <> AnatomyJs.NotDiagramRoute).
Proof.
  split.
  - intros H. unfold Listeners.onRouteEvent. by rewrite H.
  - intros Ht Hc Ha.
    pose proof (hitClickHandler_mapped_route owner el pg tpl content g Ht Hc Ha) as Hr.
    unfold Listeners.onRouteEvent, AnatomyJs.tryBindWithRetries. rewrite Hr.
    destruct (tick_bounds host 40 50 41 0 0 (hitClickHandler owner el pg) ltac:(lia))
      as (s & pg' & E & Hk & _ & Hw & He).
    exists s, pg'. split; [exact E|]. split; [simpl in Hk; lia|]. split; [exact Hw|].
    destruct He as [[-> _]|[-> _]]; discriminate.
Qed.

Lemma activation_starts_session_witness :
  exists s pg',
    Listeners.onRouteEvent idle (hitClickHandler AnatomyScript chest0 boundMounted)
    = Some (s, pg')
    /\ (1 <= AnatomyJs.ticks s <= 40)%nat.
Proof.
  assert (Ht : table AnatomyScript !! id_of boundMounted chest0 = Some "chest-template")
    by (vm_compute; reflexivity).
  destruct (activation_starts_session idle AnatomyScript chest0 boundMounted
              "chest-template" [Node "h1" None [] []] 0%nat) as [_ H].
  destruct (H Ht) as (s & pg' & E & Hk & _);
    [vm_compute; reflexivity|vm_compute; reflexivity|].
  exists s, pg'. split; [exact E|exact Hk].
Defined.

End RouteFacts.

(** ** Further properties: the hotspot component *)
Section ComponentFacts.
Import AnatomyDiagram Component.
Local Open Scope Q_scope.

Lemma clamp_between_spec (n lo hi : Q) :
  lo <= clamp_between n lo hi
  /\ (lo <= hi -> clamp_between n lo hi <= hi)
  /\ (hi < lo -> clamp_between n lo hi == lo)
  /\ (lo <= n -> n <= hi -> clamp_between n lo hi == n)
  /\ (n < lo -> clamp_between n lo hi == lo)
  /\ (lo <= hi -> hi < n -> clamp_between n lo hi == hi).
Proof.
  unfold clamp_between.
  destruct (Q.max_spec lo (Qmin hi n)) as [[H1 E1]|[H1 E1]],
           (Q.min_spec hi n) as [[H2 E2]|[H2 E2]];
    rewrite ?E1, ?E2 in *; repeat split; intros; try lra.
Qed.

(** X13. [clamp] with any bounds never goes below [min]; with [min <= max]
    it never goes above [max], is the identity between the bounds and
    sticks to the nearer bound outside; with [min > max] it is [min]
    whatever the input.  With the default bounds it is monotone and
    applying it twice is applying it once. *)
Theorem clamp_characterised (n m lo hi : Q) :
  lo <= clamp_between n lo hi
  /\ (lo <= hi -> clamp_between n lo hi <= hi)
  /\ (hi < lo -> clamp_between n lo hi == lo)
  /\ (lo <= n -> n <= hi -> clamp_between n lo hi == n)
  /\ (n < lo -> clamp_between n lo hi == lo)
  /\ (lo <= hi -> hi < n -> clamp_between n lo hi == hi)
  /\ (n <= m -> clamp n <= clamp m)
  /\ clamp (clamp n) == clamp n.
Proof.
  destruct (clamp_between_spec n lo hi) as (A & B & C & D & E & F).
  do 6 (split; [done|]). split.
  - intros Hnm. unfold clamp.
    destruct (clamp_between_spec n 0 100) as (A1 & B1 & _ & D1 & E1 & F1).
    destruct (clamp_between_spec m 0 100) as (A2 & B2 & _ & D2 & E2 & F2).
    destruct (Qlt_le_dec n 0), (Qlt_le_dec 100 n), (Qlt_le_dec m 0), (Qlt_le_dec 100 m);
      rewrite ?E1, ?F1, ?D1, ?E2, ?F2, ?D2 by lra; lra.
  - unfold clamp.
    destruct (clamp_between_spec n 0 100) as (A1 & B1 & _).
    destruct (clamp_between_spec (clamp_between n 0 100) 0 100) as (_ & _ & _ & D2 & _).
    apply D2; [done|]. apply B1. lra.
Qed.

Lemma clamp_characterised_witness :
  clamp_between 7 10 5 == 10 /\ clamp (-3) == 0 /\ clamp 250 == 100 /\ clamp (428#10) == 428#10.
Proof.
  destruct (clamp_characterised 7 7 10 5) as (_ & _ & C & _).
  destruct (clamp_characterised (-3) 0 0 100) as (_ & _ & _ & _ & E & _).
  destruct (clamp_characterised 250 250 0 100) as (_ & _ & _ & _ & _ & F & _).
  destruct (clamp_characterised (428#10) 0 0 100) as (_ & _ & _ & D & _).
  split; [apply C; lra|]. split; [apply E; lra|]. split; [apply F; lra|]. apply D; lra.
Defined.

Local Close Scope Q_scope.

Lemma filtered_In regions v r :
  In r (filtered regions v) <-> In r regions /\ view r = v.
Proof.
  unfold filtered. rewrite List.filter_In.
  split; intros [H1 H2]; (split; [done|]); by destruct (view r), v.
Qed.

Lemma filtered_lengths regions :
  (length (filtered regions front) + length (filtered regions back))%nat = length regions.
Proof.
  induction regions as [|r rs IH]; [done|]. unfold filtered in *. simpl.
  destruct (view r); simpl; lia.
Qed.

Lemma filtered_sublist regions v : sublist (filtered regions v) regions.
Proof.
  induction regions as [|r rs IH]; [constructor|]. unfold filtered in *. simpl.
  destruct (view_eqb (view r) v); by constructor.
Qed.

Lemma filtered_twice regions v w :
  filtered (filtered regions v) w = if view_eqb v w then filtered regions v else [].
Proof.
  induction regions as [|r rs IH]; [by destruct (view_eqb v w)|].
  unfold filtered in *. simpl.
  destruct (view r) eqn:Er, v, w; simpl; rewrite ?Er; simpl; try done;
    simpl in IH; by rewrite IH.
Qed.

Lemma foldl_snoc {A B} (f : A -> B -> A) (a : A) (l : list B) (b : B) :
  foldl f a (l ++ [b]) = f (foldl f a l) b.
Proof. by rewrite foldl_app. Qed.

(** X15. After any trace of events the active key is the key of the last
    region selected ([null] only while none was), the calls of [onSelect]
    are the selected regions in order (none when the callback is absent),
    and the view is the mounted one when the view button was clicked an
    even number of times and the other one when odd; so the hotspot of the
    last selected region is highlighted in every later render that shows
    it. *)
Theorem selection_persists (p : Props) (es : list Event) :
  let st := foldl (handle p) (mount p) es in
  activeKey st = key <$> last (selects es)
  /\ selected st = (if p_onSelect p then selects es else [])
  /\ currentView st
     = (if Nat.even (viewClicks es) then default front (p_view p)
        else otherView (default front (p_view p)))
  /\ (forall r, last (selects es) = Some r -> h_highlight (hotspot st r) = true).
Proof.
  cbv zeta.
  assert (H : activeKey (foldl (handle p) (mount p) es) = key <$> last (selects es)
              /\ selected (foldl (handle p) (mount p) es)
                 = (if p_onSelect p then selects es else [])
              /\ currentView (foldl (handle p) (mount p) es)
                 = (if Nat.even (viewClicks es) then default front (p_view p)
                    else otherView (default front (p_view p)))).
  { induction es as [|e es (Ha & Hs & Hv)] using rev_ind.
    - simpl. by destruct (p_onSelect p).
    - rewrite foldl_snoc. unfold selects, viewClicks in *.
      rewrite omap_app, List.filter_app, length_app.
      destruct e; simpl; rewrite ?app_nil_r, ?Nat.add_0_r; try done.
      + do 2 (split; [done|]). rewrite Hv, Nat.add_1_r, Nat.even_succ, <- Nat.negb_even.
        destruct (Nat.even _); simpl; [done|]. by destruct (default front (p_view p)).
      + rewrite last_snoc. split; [done|]. split; [|done].
        rewrite Hs. by destruct (p_onSelect p). }
  destruct H as (Ha & Hs & Hv). do 3 (split; [done|]).
  intros r Hr. unfold hotspot. simpl. rewrite Ha, Hr. simpl.
  rewrite (bool_decide_eq_true_2 (Some (key r) = Some (key r))) by done.
  apply orb_true_r.
Qed.

(** X16. The hover key follows the pointer whichever of the two events of
    a move from one hotspot to another comes first: after leaving [a] and
    entering [b] (regions with different keys), in either order, [b] is
    hovered; a leave of a region that is not the hovered one changes
    nothing.  The legend chip is rendered exactly when the hover key is a
    non-empty string, and carries a label only if a region of the current
    view has that key. *)
Theorem hover_follows_pointer (p : Props) (st : State) (a b : MuscleRegion) :
  key a <> key b ->
  hoverKey (mouseLeave a (mouseEnter b (mouseEnter a st))) = Some (key b)
  /\ hoverKey (mouseEnter b (mouseLeave a (mouseEnter a st))) = Some (key b)
  /\ hoverKey (mouseLeave a (mouseEnter a st)) = None
  /\ (hoverKey st <> Some (key a) -> mouseLeave a st = st)
  /\ (is_Some (legend p st) <-> exists k, hoverKey st = Some k /\ k <> "")
  /\ (forall l, legend p st = Some (Some l) ->
        exists r, In r (default SAMPLE_REGIONS (p_regions p))
                  /\ view r = currentView st /\ hoverKey st = Some (key r) /\ label r = l).
Proof.
  intros Hab. split; [|split; [|split; [|split; [|split]]]].
  - unfold mouseLeave, mouseEnter. simpl.
    rewrite bool_decide_eq_false_2; [done|]. intros [= E]. by apply Hab.
  - done.
  - unfold mouseLeave, mouseEnter. simpl. by rewrite bool_decide_eq_true_2.
  - intros H. unfold mouseLeave. rewrite bool_decide_eq_false_2 by done. by destruct st.
  - unfold legend. destruct (hoverKey st) as [k|].
    + case_bool_decide as E.
      * split; [by intros [? ?]|]. intros (k' & [= <-] & Hk). done.
      * split; [|by eexists]. intros _. by exists k.
    + split; [by intros [? ?]|]. by intros (k & ? & _).
  - intros l. unfold legend. destruct (hoverKey st) as [k|]; [|done].
    case_bool_decide as E; [done|].
    destruct (List.find _ _) as [r|] eqn:F; [|done]. simpl. intros [= <-].
    apply List.find_some in F as [Hin Hk]. apply bool_decide_eq_true in Hk.
    unfold visible in Hin. apply filtered_In in Hin as [Hin Hv].
    exists r. by rewrite Hk.
Qed.

Lemma hover_follows_pointer_witness :
  let a := mkRegion "chest" "Chest (Pectorals)" front (mkBox (410#10) (275#10) (180#10) (75#10)) in
  let b := mkRegion "abs" "Abs (Rectus Abdominis)" front (mkBox (450#10) (369#10) (100#10) (110#10)) in
  let p := mkProps None None false None None in
  hoverKey (mouseLeave a (mouseEnter b (mouseEnter a (mount p)))) = Some "abs"
  /\ legend p (mouseEnter b (mount p)) = Some (Some "Abs (Rectus Abdominis)")
  /\ legend p (toggleView (mouseEnter b (mount p))) = Some None.
Proof.
  cbv zeta. split; [|split; reflexivity].
  apply (hover_follows_pointer (mkProps None None false None None)). discriminate.
Defined.

Lemma selection_persists_witness :
  let a := mkRegion "chest" "Chest (Pectorals)" front (mkBox (410#10) (275#10) (180#10) (75#10)) in
  let p := mkProps None None true None None in
  let st := foldl (handle p) (mount p) [Enter a; Select a; Leave a; ClickView; ClickDebug] in
  activeKey st = Some "chest" /\ currentView st = back /\ selected st = [a]
  /\ h_highlight (hotspot st a) = true.
Proof.
  cbv zeta.
  destruct (selection_persists (mkProps None None true None None)
    [Enter (mkRegion "chest" "Chest (Pectorals)" front (mkBox (410#10) (275#10) (180#10) (75#10)));
     Select (mkRegion "chest" "Chest (Pectorals)" front (mkBox (410#10) (275#10) (180#10) (75#10)));
     Leave (mkRegion "chest" "Chest (Pectorals)" front (mkBox (410#10) (275#10) (180#10) (75#10)));
     ClickView; ClickDebug]) as (Ha & Hs & Hv & Hh).
  split; [exact Ha|]. split; [exact Hv|]. split; [exact Hs|]. by apply Hh.
Defined.


End ComponentFacts.

(** ** Further properties: the two scripts side by side *)
Section TwoScripts.
Import Binder Events.

(** X17. The copies agree in what they do, not only in their tables:
    [showTemplate] of one script leaves the page [showTemplate] of the
    other leaves, and so do the click closures the two binders attach. *)
Theorem scripts_agree_on_activation (el : ref) (tpl : string) (q : page) :
  Autowire.showTemplate tpl q = AnatomyJs.showTemplate tpl q
  /\ hitClickHandler AutowireScript el q = hitClickHandler AnatomyScript el q.
Proof.
  assert (S : Autowire.showTemplate tpl q = AnatomyJs.showTemplate tpl q).
  { by rewrite (showTemplate_same AutowireScript), (showTemplate_same AnatomyScript). }
  split; [exact S|]. unfold hitClickHandler.
  change (table AutowireScript) with (table AnatomyScript).
  destruct (table AnatomyScript !! id_of q el) as [t|]; [|done].
  case_bool_decide; [done|].
  by rewrite (showTemplate_same AutowireScript), (showTemplate_same AnatomyScript).
Qed.

(** X18. [tryInit] touches the page only to bind a complete surface: with
    no [#app], no [section.card] below it, or a section in which one of
    the two views or the toggle control does not resolve, the page is left
    exactly as it was. *)
Theorem tryInit_needs_complete_surface (pg : page) :
  app_querySelector pg (TagClass "section" "card") = None
  \/ (exists card, app_querySelector pg (TagClass "section" "card") = Some card
                   /\ resolve pg card = None) ->
  Autowire.tryInit pg = pg.
Proof.
  unfold Autowire.tryInit. intros [H|(card & H & Hr)]; rewrite H.
  - by destruct (app pg).
  - destruct (app pg); [|done]. unfold Autowire.initBodyDiagram. rewrite Hr.
    by destruct (_ || _).
Qed.

Lemma tryInit_needs_complete_surface_witness :
  Autowire.tryInit halfMounted = halfMounted /\ Autowire.tryInit waiting = waiting.
Proof.
  split; apply tryInit_needs_complete_surface.
  - right. exists section0. split; vm_compute; reflexivity.
  - left. vm_compute; reflexivity.
Defined.

End TwoScripts.

(** ** The hotspots over all numbers *)
Section NumberFacts.
Import JsNumber Hotspots.

Lemma clamp_Finite (q : Q) :
  clamp (Finite q)
  = if Qle_bool 100 q then Finite 100 else if Qle_bool 0 q then Finite q else Finite 0.
Proof.
  unfold clamp, clamp_between, Math_min, Math_max, le.
  destruct (Qle_bool 100 q); [reflexivity|]. by destruct (Qle_bool 0 q).
Qed.

Lemma Qle_bool_false (x y : Q) : Qle_bool x y = false -> (y < x)%Q.
Proof.
  intros H. apply Qnot_le_lt. intros Hle. apply Qle_bool_iff in Hle. congruence.
Qed.

Lemma clamp_bounded (n : number) : n <> NaN -> bounded (clamp n).
Proof.
  intros Hn. destruct n as [| |q|]; [done|by vm_compute| |by vm_compute].
  rewrite clamp_Finite.
  destruct (Qle_bool 100 q) eqn:E1; [by vm_compute|].
  destruct (Qle_bool 0 q) eqn:E2; [|by vm_compute].
  split; simpl; [done|].
  apply Qle_bool_iff. apply Qle_bool_false in E1. lra.
Qed.

Lemma clamp_fixes_bounded (n : number) : bounded n -> clamp n = n \/ clamp n = Finite 100.
Proof.
  intros [H0 H1]. destruct n as [| |q|]; try done.
  rewrite clamp_Finite. simpl in H0. rewrite H0.
  destruct (Qle_bool 100 q); [by right|by left].
Qed.

(** Clamping the two summands keeps a sum that is at most 100 at most 100. *)
Lemma clamp_keeps_sum (a b : number) :
  le (add a b) (Finite 100) = true -> le (add (clamp a) (clamp b)) (Finite 100) = true.
Proof.
  destruct a as [| |x|], b as [| |y|]; try done; try (intros _; by vm_compute).
  - intros _. rewrite clamp_Finite.
    change (clamp NegInfinity) with (Finite 0).
    destruct (Qle_bool 100 y) eqn:E1; [by vm_compute|].
    destruct (Qle_bool 0 y) eqn:E2; [|by vm_compute].
    simpl. apply Qle_bool_iff. apply Qle_bool_false in E1. lra.
  - intros _. rewrite clamp_Finite.
    change (clamp NegInfinity) with (Finite 0).
    destruct (Qle_bool 100 x) eqn:E1; [by vm_compute|].
    destruct (Qle_bool 0 x) eqn:E2; [|by vm_compute].
    simpl. apply Qle_bool_iff. apply Qle_bool_false in E1. lra.
  - simpl. intros H. apply Qle_bool_iff in H. rewrite !clamp_Finite.
    destruct (Qle_bool 100 x) eqn:X1, (Qle_bool 0 x) eqn:X0,
             (Qle_bool 100 y) eqn:Y1, (Qle_bool 0 y) eqn:Y0;
      try apply Qle_bool_iff in X1; try apply Qle_bool_iff in X0;
      try apply Qle_bool_iff in Y1; try apply Qle_bool_iff in Y0;
      try apply Qle_bool_false in X1; try apply Qle_bool_false in X0;
      try apply Qle_bool_false in Y1; try apply Qle_bool_false in Y0;
      simpl; apply Qle_bool_iff; lra.
Qed.

(** On finite numbers this is the [clamp] of [AnatomyDiagram]. *)
Lemma clamp_finite_agrees (q : Q) :
  exists q', clamp (Finite q) = Finite q' /\ (q' == AnatomyDiagram.clamp q)%Q.
Proof.
  rewrite clamp_Finite. unfold AnatomyDiagram.clamp.
  destruct (clamp_between_spec q 0 100) as (A & B & _ & D & E & F).
  destruct (Qle_bool 100 q) eqn:E1.
  - exists 100%Q. split; [done|]. apply Qle_bool_iff in E1.
    destruct (Qlt_le_dec 100 q) as [H|H]; [rewrite F; lra|rewrite D; lra].
  - apply Qle_bool_false in E1. destruct (Qle_bool 0 q) eqn:E0.
    + exists q. split; [done|]. apply Qle_bool_iff in E0. rewrite D; lra.
    + exists 0%Q. split; [done|]. apply Qle_bool_false in E0. rewrite E; lra.
Qed.

Lemma render_regions regions st :
  h_region <$> render regions st
  = filtered (default SAMPLE_REGIONS regions) (Component.currentView st).
Proof.
  unfold render.
  induction (filtered (default SAMPLE_REGIONS regions) (Component.currentView st))
    as [|r l IH]; [done|]. simpl. by f_equal.
Qed.

Lemma shown_In regions v r :
  In r (filtered regions v) <-> In r regions /\ view r = v.
Proof.
  unfold filtered. rewrite List.filter_In.
  split; intros [H1 H2]; (split; [done|]); by destruct (view r), v.
Qed.

Lemma shown_lengths regions :
  (length (filtered regions AnatomyDiagram.front)
   + length (filtered regions AnatomyDiagram.back))%nat = length regions.
Proof.
  induction regions as [|r rs IH]; [done|]. unfold filtered in *. simpl.
  destruct (view r); simpl; lia.
Qed.

Lemma shown_sublist regions v : sublist (filtered regions v) regions.
Proof.
  induction regions as [|r rs IH]; [constructor|]. unfold filtered in *. simpl.
  destruct (AnatomyDiagram.view_eqb (view r) v); by constructor.
Qed.

(** C6, as the code has it.  [clamp] treats each of left, top, width and
    height by itself: NaN stays NaN, any other number comes out between 0
    and 100, and no region is rejected.  A box with left + width <= 100 and
    top + height <= 100 keeps both bounds when its values are clamped; so
    does every row of [SAMPLE_REGIONS], which is rendered as written. *)
Theorem clamp_bounds_each_value :
  Forall (fun r => hotspotStyle r = box r /\ fits (hotspotStyle r)) SAMPLE_REGIONS
  /\ (forall n : number, clamped n (clamp n))
  /\ (forall r : MuscleRegion, fits (box r) -> fits (hotspotStyle r))
  /\ (forall (regions : list MuscleRegion) (st : Component.State),
        h_region <$> render (Some regions) st
        = filtered regions (Component.currentView st)).
Proof.
  split; [|split; [|split]].
  - unfold SAMPLE_REGIONS, AnatomyDiagram.SAMPLE_REGIONS. simpl.
    repeat (apply Forall_cons; split;
            [split; [reflexivity | split; by vm_compute] |]).
    apply Forall_nil_2.
  - intros n. split; [by intros ->|apply clamp_bounded].
  - intros r [H1 H2]. split; simpl; by apply clamp_keeps_sum.
  - intros regions st. apply render_regions.
Qed.

Lemma clamp_bounds_each_value_witness :
  fits (hotspotStyle (mkRegion "low" "Low" AnatomyDiagram.front
                        (mkBox (Finite (-20)) (Finite 0) (Finite 110) (Finite 10))))
  /\ bounded (clamp Infinity) /\ clamp NaN = NaN.
Proof.
  destruct clamp_bounds_each_value as (_ & Hc & Hf & _).
  split; [apply Hf; by vm_compute|].
  split; [by apply (Hc Infinity)|by apply (Hc NaN)].
Defined.

(** C6 as stated fails: a region handed to the component with left = 80 and
    width = 50 is rendered with these very values, 130 percent in sum. *)
Lemma wide_box_is_rendered :
  let st := Component.mount plainProps in
  render (Some [wide]) st = [hotspot st wide]
  /\ h_style (hotspot st wide) = mkBox (Finite 80) (Finite 0) (Finite 50) (Finite 10)
  /\ ~ fits (h_style (hotspot st wide)).
Proof.
  cbv zeta. split; [reflexivity|]. split; [reflexivity|].
  intros [H _]. vm_compute in H. discriminate.
Qed.

(** X14. A render shows one hotspot for every region of the current view
    and for no other, in the order of [regions]; each of the four style
    values of a hotspot is NaN when the region's value is NaN and lies
    between 0 and 100 otherwise.  The view button switches to the hotspots
    a render did not show, and the two renders together show every region
    exactly once. *)
Theorem render_shows_current_view
    (regions : option (list MuscleRegion)) (st : Component.State) :
  h_region <$> render regions st
  = filtered (default SAMPLE_REGIONS regions) (Component.currentView st)
  /\ (forall r, In r (h_region <$> render regions st)
                <-> In r (default SAMPLE_REGIONS regions)
                    /\ view r = Component.currentView st)
  /\ sublist (h_region <$> render regions st) (default SAMPLE_REGIONS regions)
  /\ Forall (fun h => clamped (left (box (h_region h))) (left (h_style h))
                      /\ clamped (top (box (h_region h))) (top (h_style h))
                      /\ clamped (width (box (h_region h))) (width (h_style h))
                      /\ clamped (height (box (h_region h))) (height (h_style h)))
            (render regions st)
  /\ Component.currentView (Component.toggleView st) = otherView (Component.currentView st)
  /\ (length (render regions st) + length (render regions (Component.toggleView st)))%nat
     = length (default SAMPLE_REGIONS regions)
  /\ (forall r, In r (h_region <$> render regions st) ->
                ~ In r (h_region <$> render regions (Component.toggleView st))).
Proof.
  split; [apply render_regions|].
  split; [intros r; rewrite render_regions; apply shown_In|].
  split; [rewrite render_regions; apply shown_sublist|]. split.
  { unfold render. apply Forall_fmap, Forall_forall. intros r _. simpl.
    assert (C : forall n, clamped n (clamp n))
      by (intros n; split; [by intros ->|apply clamp_bounded]).
    split; [apply C|]. split; [apply C|]. split; apply C. }
  split; [reflexivity|]. split.
  - unfold render. rewrite !length_fmap.
    pose proof (shown_lengths (default SAMPLE_REGIONS regions)).
    simpl. destruct (Component.currentView st); lia.
  - intros r. rewrite !render_regions, !shown_In. intros [_ H1] [_ H2].
    simpl in H2. destruct (Component.currentView st); congruence.
Qed.

Lemma render_shows_current_view_witness :
  length (render None (Component.mount plainProps)) = 9%nat
  /\ length (render None (Component.toggleView (Component.mount plainProps))) = 6%nat
  /\ ~ In wide (h_region <$> render (Some [wide; broken])
                               (Component.toggleView (Component.mount plainProps)))
  /\ left (h_style (hotspot (Component.mount plainProps) broken)) = NaN.
Proof.
  destruct (render_shows_current_view None (Component.mount plainProps))
    as (_ & _ & _ & _ & _ & H & _).
  destruct (render_shows_current_view (Some [wide; broken]) (Component.mount plainProps))
    as (_ & _ & _ & _ & _ & _ & D).
  split; [reflexivity|]. split; [simpl in *; lia|].
  split; [apply D; left; reflexivity|reflexivity].
Defined.

End NumberFacts.

(** ** The closures inside the document *)
Section BrowserFacts.
Import Binder Events Browser.

Variable e : env.

(** Neither [showTemplate] nor the click closure of a hit element writes on
    an element, and only a string of the table reaches [location.hash]. *)
Lemma showTemplate_store owner v w :
  store (page_of (showTemplate e owner v w)) = store (page_of w).
Proof.
  unfold showTemplate.
  by destruct (getElementById e (page_of w) (text e v)), (app (page_of w)), v.
Qed.

Lemma hitClick_store owner el w :
  store (page_of (hitClick e owner el w)) = store (page_of w).
Proof.
  unfold hitClick. destruct (lookup owner _) as [v|]; [|done].
  destruct (truthy v); [apply showTemplate_store|done].
Qed.

Lemma click_step_codes a w i r :
  code_of <$> listeners (props_of (page_of (run_click e a w i)) r)
  = code_of <$> listeners (props_of (page_of w) r).
Proof.
  unfold run_click.
  destruct (listeners (props_of (page_of w) a) !! i) as [[c f b t|el|o el]|] eqn:E;
    try done.
  - simpl.
    destruct (props_of_toggleHandler a i c f b t (page_of w) r) as (_ & _ & _ & _ & _ & ->).
    case_decide as Hr; [|done]. subst r.
    rewrite list_fmap_insert. simpl.
    apply list_insert_id. by rewrite list_lookup_fmap, E.
  - by rewrite (props_of_store _ _ _ (hitClick_store o el w)).
Qed.

Lemma dispatch_codes el w r :
  code_of <$> listeners (props_of (page_of (click e el w)) r)
  = code_of <$> listeners (props_of (page_of w) r).
Proof.
  unfold click.
  apply (foldl_inv (fun q => code_of <$> listeners (props_of (page_of q) r)
                             = code_of <$> listeners (props_of (page_of w) r))); [done|].
  intros q a _ Hq. unfold invoke_click.
  apply (foldl_inv (fun q' => code_of <$> listeners (props_of (page_of q') r)
                              = code_of <$> listeners (props_of (page_of w) r))); [done|].
  intros q' i _ Hq'. by rewrite click_step_codes.
Qed.

Lemma keydownFree_codes pg pg' a :
  code_of <$> listeners (props_of pg' a) = code_of <$> listeners (props_of pg a) ->
  keydownFree pg a -> keydownFree pg' a.
Proof.
  unfold keydownFree. intros H.
  assert (K : forall L, Forall (fun l => is_keydown l = false) L
                        <-> Forall (fun c => match c with KeydownCode _ => False | _ => True end)
                                   (code_of <$> L)).
  { intros L. rewrite Forall_fmap. apply Forall_proper; [|done].
    intros [c f b t|el|o el]; simpl; split; try done. }
  rewrite !K. by rewrite H.
Qed.

Lemma invoke_keydown_free key st a :
  keydownFree (page_of st.2) a -> invoke_keydown e key st a = st.
Proof.
  intros H. unfold invoke_keydown.
  apply (foldl_inv (fun s => s = st)); [done|].
  intros s i _ ->. unfold run_keydown.
  destruct (listeners (props_of (page_of st.2) a) !! i) as [l|] eqn:E; [|done].
  apply list_elem_of_lookup_2 in E.
  unfold keydownFree in H. rewrite Forall_forall in H. specialize (H l E).
  by destruct l.
Qed.

(** A key press on an element with one keydown closure of its own, below
    elements that have none: the closure runs once, and nothing else. *)
Lemma keydown_once el key w :
  key = "Enter" \/ key = " " ->
  oneKeydown (page_of w) el ->
  Forall (keydownFree (page_of w)) (tail (eventPath (page_of w) el)) ->
  keydown e el key w = hitKeydown e el key (false, w).
Proof.
  intros Hkey (l1 & l2 & HL & H1 & H2) Hup.
  assert (Hh : hitKeydown e el key (false, w)
               = (true, if hasClick e el then click e el w
                        else World (page_of w) (uncaught w ++ [ClickOfNonHTMLElement]))).
  { unfold hitKeydown. by destruct Hkey as [-> | ->]. }
  set (w1 := if hasClick e el then click e el w
             else World (page_of w) (uncaught w ++ [ClickOfNonHTMLElement])) in *.
  assert (Hc : forall r, code_of <$> listeners (props_of (page_of w1) r)
                         = code_of <$> listeners (props_of (page_of w) r)).
  { intros r. unfold w1. destruct (hasClick e el); [apply dispatch_codes|done]. }
  rewrite Hh. unfold keydown, eventPath. simpl foldl. simpl in Hup.
  assert (Hel : invoke_keydown e key (false, w) el = (true, w1)).
  { unfold invoke_keydown. simpl snd. rewrite HL, length_app. simpl length.
    rewrite seq_app, foldl_app, Nat.add_0_l. simpl seq. simpl foldl.
    assert (A : foldl (run_keydown e el key) (false, w) (seq 0 (length l1)) = (false, w)).
    { apply (foldl_inv (fun s => s = (false, w))); [done|].
      intros s i Hi ->. unfold run_keydown. simpl snd. rewrite HL.
      apply elem_of_seq in Hi. rewrite lookup_app_l by lia.
      destruct (l1 !! i) as [l|] eqn:E; [|done].
      apply list_elem_of_lookup_2 in E. rewrite Forall_forall in H1.
      specialize (H1 l E). by destruct l. }
    rewrite A.
    assert (B : run_keydown e el key (false, w) (length l1) = (true, w1)).
    { unfold run_keydown. simpl snd. rewrite HL.
      by rewrite list_lookup_middle. }
    rewrite B.
    apply (foldl_inv (fun s => s = (true, w1))); [done|].
    intros s i Hi ->. unfold run_keydown. simpl snd.
    destruct (listeners (props_of (page_of w1) el) !! i) as [l|] eqn:E; [|done].
    assert (Hk : is_keydown l = false).
    { assert (Hl : (code_of <$> listeners (props_of (page_of w1) el)) !! i
                   = Some (code_of l)) by (by rewrite list_lookup_fmap, E).
      rewrite Hc, HL, list_lookup_fmap in Hl.
      apply elem_of_seq in Hi.
      rewrite lookup_app_r in Hl by lia.
      destruct (i - length l1)%nat as [|j] eqn:Ej; [lia|]. simpl in Hl.
      destruct (l2 !! j) as [l'|] eqn:E'; [|done]. simpl in Hl.
      apply list_elem_of_lookup_2 in E'. rewrite Forall_forall in H2.
      specialize (H2 l' E'). injection Hl as Hl.
      destruct l, l'; simpl in *; congruence. }
    by destruct l. }
  rewrite Hel.
  apply (foldl_inv (fun s => s = (true, w1))); [done|].
  intros s a Ha ->. apply invoke_keydown_free. simpl.
  rewrite Forall_forall in Hup.
  apply (keydownFree_codes (page_of w)); [apply Hc|by apply Hup].
Qed.







End BrowserFacts.

(** ** Claims on the hit elements, inside the document *)
Section DocumentClaims.
Import Binder Events Browser.







(** X6. A region with a table entry whose template id no element of the
    document bears, or on a page without [#app], is ignored in silence by
    the click closure of either script: no route change, no mount, no
    warning, no error.  When an element that is not a template bears the
    id, the closure empties [#app], throws on [t.content.cloneNode] and
    leaves the route as it was. *)
Theorem mapped_without_template
    (e : env) (owner : script) (el : ref) (w : world) (tpl : string) :
  table owner !! id_of (page_of w) el = Some tpl ->
  (getElementById e (page_of w) tpl = NoElement \/ app (page_of w) = None ->
   hitClick e owner el w = w)
  /\ (getElementById e (page_of w) tpl = OtherElement -> is_Some (app (page_of w)) ->
      hitClick e owner el w
      = World (mount [] (page_of w)) (uncaught w ++ [ContentOfNonTemplate])
      /\ hash (page_of (hitClick e owner el w)) = hash (page_of w)
      /\ node_of (page_of (hitClick e owner el w)) (length (frags (page_of w)), [0%nat])
         = None).
Proof.
  intros Ht.
  destruct (table_values _ _ _ Ht) as [E _].
  assert (Hne : tpl <> "") by (rewrite E; by apply append_nonempty).
  assert (Hc : hitClick e owner el w = showTemplate e owner (Str tpl) w).
  { unfold hitClick, lookup. rewrite Ht. simpl.
    by rewrite bool_decide_eq_false_2. }
  rewrite Hc. unfold showTemplate. simpl text. split.
  - intros [-> | ->]; [done|]. by destruct (getElementById e (page_of w) tpl).
  - intros -> [g ->]. split; [done|]. split; [done|].
    unfold node_of, mount. simpl.
    rewrite lookup_app_r by reflexivity. by rewrite Nat.sub_diag.
Qed.

Lemma mapped_without_template_witness :
  hitClick plainEnv AnatomyScript chest0 (World boundBare []) = World boundBare []
  /\ hitClick clashingEnv AnatomyScript chest0 (World boundMounted [])
     = World (mount [] boundMounted) [ContentOfNonTemplate].
Proof.
  assert (H1 : table AnatomyScript !! id_of (page_of (World boundBare [])) chest0
               = Some "chest-template") by (vm_compute; reflexivity).
  assert (H2 : table AnatomyScript !! id_of (page_of (World boundMounted [])) chest0
               = Some "chest-template") by (vm_compute; reflexivity).
  destruct (mapped_without_template plainEnv AnatomyScript chest0 _ _ H1) as [A _].
  destruct (mapped_without_template clashingEnv AnatomyScript chest0 _ _ H2) as [_ B].
  split.
  - apply A. left. vm_compute; reflexivity.
  - apply B; [vm_compute; reflexivity|]. by eexists.
Defined.

(** X19. On a hit element without a [click] method (an SVG element), with
    one keydown closure and none on the enclosing elements, Enter or Space
    prevents the default, throws on [el.click()] and runs no click closure:
    the page is left as it was, whatever a pointer activation of the
    element does. *)
Theorem key_press_without_click_method (e : env) (el : ref) (key : string) (w : world) :
  key = "Enter" \/ key = " " ->
  hasClick e el = false ->
  oneKeydown (page_of w) el ->
  Forall (keydownFree (page_of w)) (tail (eventPath (page_of w) el)) ->
  keydown e el key w
  = (true, World (page_of w) (uncaught w ++ [ClickOfNonHTMLElement])).
Proof.
  intros Hkey Hh Hone Hup.
  rewrite (keydown_once e el key w Hkey Hone Hup).
  unfold hitKeydown. rewrite Hh. simpl.
  by destruct Hkey as [-> | ->].
Qed.

Lemma key_press_without_click_method_witness :
  let svg := Env (getElementById plainEnv) (fun _ => false) (memberText plainEnv) in
  keydown svg chest0 "Enter" (World boundMounted [])
  = (true, World boundMounted [ClickOfNonHTMLElement])
  /\ hash (page_of (click svg chest0 (World boundMounted []))) = "#/workouts/diagram/chest".
Proof.
  cbv zeta. split; [|vm_compute; reflexivity].
  apply (key_press_without_click_method
           (Env (getElementById plainEnv) (fun _ => false) (memberText plainEnv))
           chest0 "Enter" (World boundMounted [])).
  - by left.
  - reflexivity.
  - exists [], [HitClick AnatomyScript chest0].
    split; [vm_compute; reflexivity|]. split; [constructor|]. by repeat constructor.
  - assert (P : tail (eventPath (page_of (World boundMounted [])) chest0)
                = [front0; section0]) by (vm_compute; reflexivity).
    rewrite P.
    assert (L2 : listeners (props_of boundMounted front0) = []) by (vm_compute; reflexivity).
    assert (L3 : listeners (props_of boundMounted section0) = []) by (vm_compute; reflexivity).
    apply Forall_cons; split; [|apply Forall_cons; split; [|apply Forall_nil_2]];
      unfold keydownFree; simpl page_of.
    + rewrite L2. apply Forall_nil_2.
    + rewrite L3. apply Forall_nil_2.
Defined.

Lemma inherited_untabled owner id : id ∈ objectPrototype -> table owner !! id = None.
Proof.
  intros H. unfold objectPrototype in H.
  repeat (apply elem_of_cons in H as [-> | H]; [destruct owner; vm_compute; reflexivity|]).
  by apply elem_of_nil in H.
Qed.

(** X20. A hit element whose id is a member name of [Object.prototype]
    ([constructor], [toString], ...) has no table entry, yet its click
    closure logs no warning: the lookup finds the inherited member, and
    [showTemplate] is called with it.  The route never changes; with no
    element bearing the text of the member as id, or without [#app],
    nothing changes at all; with a template of that id, its content is
    mounted and [tplId.replace] throws. *)
Theorem inherited_name_logs_nothing (e : env) (owner : script) (el : ref) (w : world) :
  id_of (page_of w) el ∈ objectPrototype ->
  table owner !! id_of (page_of w) el = None
  /\ console (page_of (hitClick e owner el w)) = console (page_of w)
  /\ hash (page_of (hitClick e owner el w)) = hash (page_of w)
  /\ (getElementById e (page_of w) (memberText e (id_of (page_of w) el)) = NoElement
      \/ app (page_of w) = None ->
      hitClick e owner el w = w)
  /\ (forall content,
        getElementById e (page_of w) (memberText e (id_of (page_of w) el))
        = TemplateElement content ->
        is_Some (app (page_of w)) ->
        hitClick e owner el w
        = World (mount content (page_of w)) (uncaught w ++ [ReplaceOfNonString])).
Proof.
  intros Hin. pose proof (inherited_untabled owner _ Hin) as Ht.
  assert (Hc : hitClick e owner el w
               = showTemplate e owner (Inherited (id_of (page_of w) el)) w).
  { unfold hitClick, lookup. rewrite Ht. by rewrite bool_decide_eq_true_2. }
  split; [done|]. rewrite Hc. unfold showTemplate. simpl text.
  split; [|split; [|split]].
  - by destruct (getElementById e (page_of w) _), (app (page_of w)).
  - by destruct (getElementById e (page_of w) _), (app (page_of w)).
  - intros [-> | ->]; [done|]. by destruct (getElementById e (page_of w) _).
  - intros content -> [g ->]. done.
Qed.

Lemma inherited_name_logs_nothing_witness :
  let pg := Page "#/workouts/diagram" (Some 0%nat)
              [[ Node "section" None ["card"]
                   [ Node "button" (Some "toggleViewBtn") [] [];
                     Node "div" (Some "frontView") [] [ Node "g" (Some "constructor") [] [] ];
                     Node "div" (Some "backView") [] [] ] ]] ∅ someTemplates [] in
  hitClick plainEnv AnatomyScript chest0 (World pg []) = World pg [].
Proof.
  cbv zeta.
  match goal with |- hitClick _ _ _ ?w = _ =>
    destruct (inherited_name_logs_nothing plainEnv AnatomyScript chest0 w)
      as (_ & _ & _ & H & _)
  end.
  - apply (bool_decide_unpack _). vm_compute. exact I.
  - apply H. left. vm_compute; reflexivity.
Defined.

End DocumentClaims.
